(** * LeetCode profile fetcher

    A shallow embedding of the two entry points of the repository:

    - [Cli]: [leetcode_fetcher.py], the command-line tool;
    - [App]: [app.py], the Streamlit page.

    Both fetch one profile per user name from the GraphQL endpoint,
    normalise the reply into a dictionary and show the batch as a table.

    Modelling conventions.
    - A Python value that comes out of [response.json()] or goes into a
      result dictionary is a [value].  Numbers are Python [int]s
      (unbounded, hence [Z]); fractional JSON numbers are not modelled.
    - A string is a sequence of code points below 256.
    - A Python [dict] is an association list searched from the left.
    - A call that can raise returns an [outcome]; the programs that talk to
      the network or print run in the monad [M], whose state records every
      request sent and everything shown to the user.
    - The order in which pandas sorts a frame is a parameter of the page;
      the statements that need it say what they take from pandas. *)

From Stdlib Require Import String Ascii ZArith List Bool Lia DecimalString.
From Stdlib Require Import Permutation Sorted.
Import ListNotations.
Local Open Scope string_scope.
Local Open Scope Z_scope.
Local Open Scope list_scope.

(** ** Python values *)

#[local] Set Warnings "-register-all".

Inductive value : Type :=
| VNone
| VBool (b : bool)
| VInt (z : Z)
| VStr (s : string)
| VList (items : list value)
| VDict (entries : list (string * value)).

(** The dictionaries returned by [fetch_user_data]. *)
Definition record : Type := list (string * value).

(** ** Exceptions and results *)

Inductive exn : Type :=
| ValueError (msg : string)
| KeyError (key : string)
| TypeError
| AttributeError
| OSError (msg : string).

Inductive outcome (A : Type) : Type :=
| Ret (a : A)
| Raise (e : exn).
Arguments Ret {A} a.
Arguments Raise {A} e.

Definition obind {A B} (o : outcome A) (k : A -> outcome B) : outcome B :=
  match o with
  | Ret a => k a
  | Raise e => Raise e
  end.

Declare Scope outcome_scope.
Delimit Scope outcome_scope with outcome.
Notation "x <- e ;; k" := (obind e (fun x => k))
  (at level 61, e at next level, right associativity) : outcome_scope.

(** [try: body  except ValueError as e: handler e] *)
Definition except_ValueError {A} (body : outcome A)
    (handler : string -> outcome A) : outcome A :=
  match body with
  | Raise (ValueError msg) => handler msg
  | other => other
  end.

(** ** Built-in operations on values *)

(** [str(n)] for an [int]. *)
Definition str_int (z : Z) : string := NilZero.string_of_int (Z.to_int z).

Fixpoint dict_get (k : string) (d : list (string * value)) : option value :=
  match d with
  | [] => None
  | (k', v) :: rest => if String.eqb k k' then Some v else dict_get k rest
  end.

Definition has_key (k : string) (d : list (string * value)) : bool :=
  match dict_get k d with Some _ => true | None => false end.

(** [v[k]] with a string key. *)
Definition getitem (v : value) (k : string) : outcome value :=
  match v with
  | VDict d =>
      match dict_get k d with
      | Some x => Ret x
      | None => Raise (KeyError k)
      end
  | _ => Raise TypeError
  end.

(** [v.get(k, default)] *)
Definition get_default (v : value) (k : string) (default : value)
    : outcome value :=
  match v with
  | VDict d =>
      match dict_get k d with
      | Some x => Ret x
      | None => Ret default
      end
  | _ => Raise AttributeError
  end.

Fixpoint is_infix (p s : string) : bool :=
  prefix p s ||
  match s with
  | EmptyString => false
  | String _ rest => is_infix p rest
  end.

Definition is_str (k : string) (v : value) : bool :=
  match v with
  | VStr s => String.eqb k s
  | _ => false
  end.

(** [k in v] with a string [k]. *)
Definition contains (k : string) (v : value) : outcome bool :=
  match v with
  | VDict d => Ret (has_key k d)
  | VList l => Ret (existsb (is_str k) l)
  | VStr s => Ret (is_infix k s)
  | _ => Raise TypeError
  end.

(** Truth value of [v], as tested by [if v], [not v] and [v or d]. *)
Definition truthy (v : value) : bool :=
  match v with
  | VNone => false
  | VBool b => b
  | VInt z => negb (z =? 0)
  | VStr s => negb (String.eqb s "")
  | VList l => match l with [] => false | _ => true end
  | VDict d => match d with [] => false | _ => true end
  end.

(** [v or d] *)
Definition or_else (v d : value) : value := if truthy v then v else d.

(** The items [for x in v] runs through. *)
Definition iterate (v : value) : outcome (list value) :=
  match v with
  | VList l => Ret l
  | VDict d => Ret (map (fun kv => VStr (fst kv)) d)
  | VStr s => Ret (map (fun c => VStr (String c "")) (list_ascii_of_string s))
  | _ => Raise TypeError
  end.

(** [acc + v] for an [int] accumulator. *)
Definition add_int (acc : Z) (v : value) : outcome Z :=
  match v with
  | VInt z => Ret (acc + z)
  | VBool b => Ret (acc + (if b then 1 else 0))
  | _ => Raise TypeError
  end.

(** [sum(item["count"] for item in items)], started at [acc]: the generator
    is consumed lazily, so the lookup and the addition of one item both
    happen before the next item is touched. *)
Fixpoint sum_counts (acc : Z) (items : list value) : outcome Z :=
  match items with
  | [] => Ret acc
  | item :: rest =>
      (c <- getitem item "count" ;;
       acc' <- add_int acc c ;;
       sum_counts acc' rest)%outcome
  end.

(** [[badge["displayName"] for badge in items]] *)
Fixpoint display_names (items : list value) : outcome (list value) :=
  match items with
  | [] => Ret []
  | badge :: rest =>
      (n <- getitem badge "displayName" ;;
       ns <- display_names rest ;;
       Ret (n :: ns))%outcome
  end.

Fixpoint all_str (items : list value) : outcome (list string) :=
  match items with
  | [] => Ret []
  | VStr s :: rest => (ss <- all_str rest ;; Ret (s :: ss))%outcome
  | _ :: _ => Raise TypeError
  end.

(** [sep.join(v)] *)
Definition join (sep : string) (v : value) : outcome string :=
  (items <- iterate v ;;
   ss <- all_str items ;;
   Ret (String.concat sep ss))%outcome.

(** ** The remote reply *)

(** What [response.json()] does: it raises a [ValueError] carrying the
    decoder's message on a body that is not JSON, and returns the decoded
    value otherwise. *)
Inductive body : Type :=
| Malformed (detail : string)
| Parsed (v : value).

Record response : Type := mkResponse {
  status_code : Z;
  content : body
}.

Definition response_json (r : response) : outcome value :=
  match content r with
  | Malformed detail => Raise (ValueError detail)
  | Parsed v => Ret v
  end.

(** ** Result dictionaries *)

Definition failure_record (username : string) (error : value) : record :=
  [("username", VStr username); ("error", error)].

Definition success_record (username : string) (ranking : value)
    (problems_solved : Z) (badges : value) : record :=
  [("username", VStr username);
   ("ranking", ranking);
   ("problems_solved", VInt problems_solved);
   ("badges", badges)].

(** ** Text handling *)

Definition chr (n : nat) : ascii := ascii_of_nat n.

(** [c.isspace()] on the code points below 256. *)
Definition is_space (c : ascii) : bool :=
  let n := nat_of_ascii c in
  ((9 <=? n) && (n <=? 13) || (28 <=? n) && (n <=? 32)
   || (n =? 133) || (n =? 160))%nat.

Fixpoint lstrip_chars (l : list ascii) : list ascii :=
  match l with
  | c :: rest => if is_space c then lstrip_chars rest else l
  | [] => []
  end.

(** [s.strip()] *)
Definition strip (s : string) : string :=
  string_of_list_ascii
    (rev (lstrip_chars (rev (lstrip_chars (list_ascii_of_string s))))).

(** [s.split(sep)] for a one-character separator, [cur] being the token
    read so far. *)
Fixpoint split_from (sep : ascii) (cur : string) (s : string) : list string :=
  match s with
  | EmptyString => [cur]
  | String c rest =>
      if Ascii.eqb c sep then cur :: split_from sep "" rest
      else split_from sep (cur ++ String c "") rest
  end.

Definition split (sep : ascii) (s : string) : list string :=
  split_from sep "" s.

Definition LF : ascii := chr 10.
Definition CR : ascii := chr 13.

(** [file.readlines()] on a file opened in text mode: a line ends after
    a line feed, a carriage return or the pair of them, each read as one
    line feed; the line keeps it. *)
Fixpoint readlines_from (cur : string) (s : string) : list string :=
  match s with
  | EmptyString => if String.eqb cur "" then [] else [cur]
  | String c rest =>
      if Ascii.eqb c CR then
        match rest with
        | String c' rest' =>
            if Ascii.eqb c' LF
            then (cur ++ String LF "")%string :: readlines_from "" rest'
            else (cur ++ String LF "")%string :: readlines_from "" rest
        | EmptyString => [(cur ++ String LF "")%string]
        end
      else if Ascii.eqb c LF
      then (cur ++ String LF "")%string :: readlines_from "" rest
      else readlines_from (cur ++ String c "") rest
  end.

Definition readlines (s : string) : list string := readlines_from "" s.

(** The line boundaries of [str.splitlines] below code point 256. *)
Definition is_line_boundary (c : ascii) : bool :=
  let n := nat_of_ascii c in
  ((10 <=? n) && (n <=? 13) || (28 <=? n) && (n <=? 30) || (n =? 133))%nat.

(** [s.splitlines()]: the line ends are dropped. *)
Fixpoint splitlines_from (cur : string) (s : string) : list string :=
  match s with
  | EmptyString => if String.eqb cur "" then [] else [cur]
  | String c rest =>
      if Ascii.eqb c CR then
        match rest with
        | String c' rest' =>
            if Ascii.eqb c' LF
            then cur :: splitlines_from "" rest'
            else cur :: splitlines_from "" rest
        | EmptyString => [cur]
        end
      else if is_line_boundary c
      then cur :: splitlines_from "" rest
      else splitlines_from (cur ++ String c "") rest
  end.

Definition splitlines (s : string) : list string := splitlines_from "" s.

(** [len(l)] as a Python [int]. *)
Definition len {A} (l : list A) : Z := Z.of_nat (length l).

(** ** The world: network and screen *)

(** What the user gets to see. *)
Inductive event : Type :=
| Print (line : string)
| PrintError (e : exn)
| PrintTable (field_names : list string) (rows : list (list value))
| StTitle (text : string)
| StWrite (text : string)
| StError (text : string)
| StErrorReading (e : exn)
| StWarning (text : string)
| StDataframe (rows : list (Z * record)).

(** [calls] lists the user names of the requests sent so far, oldest
    first; [shown] lists the output so far, oldest first. *)
Record state : Type := mkState {
  calls : list string;
  shown : list event
}.

Definition initial : state := mkState [] [].

(** The remote end: the reply to the request for [username] when [n]
    requests have been answered before it. *)
Definition network : Type := nat -> string -> response.

Definition M (A : Type) : Type := state -> outcome A * state.

Definition ret {A} (a : A) : M A := fun st => (Ret a, st).

Definition bind {A B} (m : M A) (k : A -> M B) : M B :=
  fun st =>
    match m st with
    | (Ret a, st') => k a st'
    | (Raise e, st') => (Raise e, st')
    end.

Definition lift {A} (o : outcome A) : M A := fun st => (o, st).

Definition emit (ev : event) : M unit :=
  fun st => (Ret tt, mkState (calls st) (shown st ++ [ev])).

(** [try: body  except Exception as e: handler e] *)
Definition except_Exception {A} (body : M A) (handler : exn -> M A) : M A :=
  fun st =>
    match body st with
    | (Raise e, st') => handler e st'
    | done => done
    end.

Declare Scope M_scope.
Delimit Scope M_scope with M.
Notation "x <- e ;; k" := (bind e (fun x => k))
  (at level 61, e at next level, right associativity) : M_scope.
Notation "e ;; k" := (bind e (fun _ => k))
  (at level 61, right associativity) : M_scope.

(** [requests.post(url, json=payload, headers=headers)]: the payload and
    the referer are determined by the user name.  The remote end always
    answers here; a request that fails without any reply is not
    modelled. *)
Definition post (net : network) (username : string) : M response :=
  fun st =>
    (Ret (net (length (calls st)) username),
     mkState (calls st ++ [username]) (shown st)).

(** The loop of [fetch_all_users], [results] being the list built so
    far. *)
Fixpoint append_each (fetch : string -> M record) (usernames : list string)
    (results : list record) : M (list record) :=
  match usernames with
  | [] => ret results
  | username :: rest =>
      (user_data <- fetch username ;;
       append_each fetch rest (results ++ [user_data]))%M
  end.

(** ** [leetcode_fetcher.py] *)

Module Cli.

(** Lines 84-108 of [fetch_user_data]: everything after the request. *)
Definition normalize (username : string) (response : response)
    : outcome record :=
  if negb (status_code response =? 200) then
    Ret (failure_record username
           (VStr ("API error: " ++ str_int (status_code response))))
  else
    except_ValueError
      (data <- response_json response ;;
       has_errors <- contains "errors" data ;;
       if has_errors : bool then
         errors <- getitem data "errors" ;;
         Ret (failure_record username errors)
       else
         d <- getitem data "data" ;;
         user_data <- getitem d "matchedUser" ;;
         if negb (truthy user_data) then
           Ret (failure_record username (VStr "User not found."))
         else
           profile <- getitem user_data "profile" ;;
           stats <- getitem user_data "submitStats" ;;
           submissions <- getitem stats "acSubmissionNum" ;;
           badges <- get_default user_data "badges" (VList []) ;;
           ranking <- getitem profile "ranking" ;;
           items <- iterate submissions ;;
           total <- sum_counts 0 items ;;
           badge_items <- iterate badges ;;
           names <- display_names badge_items ;;
           Ret (success_record username ranking (total / 2) (VList names)))%outcome
      (fun e =>
         Ret (failure_record username (VStr ("Invalid API response: " ++ e)))).

(** [fetch_user_data]: one request, then the normalisation above. *)
Definition fetch_user_data (net : network) (username : string) : M record :=
  (response <- post net username ;;
   lift (normalize username response))%M.

Definition fetch_all_users (net : network) (usernames : list string)
    : M (list record) :=
  append_each (fetch_user_data net) usernames [].

Definition field_names : list string :=
  ["Username"; "Ranking"; "Problems Solved"; "Badges"].

(** The row [display_data] adds for one dictionary (lines 133-141). *)
Definition table_row (user : record) : outcome (list value) :=
  if has_key "error" user then
    (name <- getitem (VDict user) "username" ;;
     Ret [name; VStr "Error"; VStr "-"; VStr "-"])%outcome
  else
    (name <- getitem (VDict user) "username" ;;
     ranking <- getitem (VDict user) "ranking" ;;
     solved <- getitem (VDict user) "problems_solved" ;;
     badges <- getitem (VDict user) "badges" ;;
     badge_text <- (if truthy badges
                    then joined <- join ", " badges ;; Ret (VStr joined)
                    else Ret (VStr "None")) ;;
     Ret [name; or_else ranking (VStr "N/A"); solved; badge_text])%outcome.

Fixpoint table_rows (data : list record) : outcome (list (list value)) :=
  match data with
  | [] => Ret []
  | user :: rest =>
      (row <- table_row user ;;
       rows <- table_rows rest ;;
       Ret (row :: rows))%outcome
  end.

(** [display_data]: the rows are added in the order of [data] and the
    table is printed once all of them are in. *)
Definition display_data (data : list record) : M unit :=
  (rows <- lift (table_rows data) ;;
   emit (PrintTable field_names rows))%M.

(** The parsed command line: [args.file] and [args.usernames]. *)
Record args : Type := mkArgs {
  file : option string;
  usernames : option string
}.

(** What [open(path, "r")] followed by [readlines()] finds. *)
Inductive file_content : Type :=
| NotFound
| Unreadable (e : exn)
| Text (text : string).

Definition filesystem : Type := string -> file_content.

(** The value of an option when it is truthy: given and not empty. *)
Definition given (o : option string) : option string :=
  match o with
  | Some s => if String.eqb s "" then None else Some s
  | None => None
  end.

(** Lines 21-31 of [get_usernames]: the tokens, before the size check. *)
Definition read_usernames (a : args) (fs : filesystem)
    : outcome (list string) :=
  match given (file a) with
  | Some path =>
      match fs path with
      | NotFound => Raise (ValueError ("File not found: " ++ path))
      | Unreadable e => Raise e
      | Text text => Ret (map strip (readlines text))
      end
  | None =>
      match given (usernames a) with
      | Some list => Ret (map strip (split "," list))
      | None =>
          Raise (ValueError "Provide either a file path or a list of usernames.")
      end
  end.

Definition get_usernames (a : args) (fs : filesystem)
    : outcome (list string) :=
  (names <- read_usernames a fs ;;
   if len names >? 100
   then Raise (ValueError "The number of usernames cannot exceed 100.")
   else Ret names)%outcome.

(** The main program (lines 147-158). *)
Definition main (a : args) (fs : filesystem) (net : network) : M unit :=
  except_Exception
    (names <- lift (get_usernames a fs) ;;
     emit (Print ("Fetching data for " ++ str_int (len names) ++ " users...")) ;;
     user_data_list <- fetch_all_users net names ;;
     display_data user_data_list)%M
    (fun e => emit (PrintError e)).

End Cli.

(** ** [app.py] *)

Module App.

(** Lines 70-94 of [fetch_user_data]; it differs from the command-line
    version in the [badges] entry only, which is already the text to
    display. *)
Definition normalize (username : string) (response : response)
    : outcome record :=
  if negb (status_code response =? 200) then
    Ret (failure_record username
           (VStr ("API error: " ++ str_int (status_code response))))
  else
    except_ValueError
      (data <- response_json response ;;
       has_errors <- contains "errors" data ;;
       if has_errors : bool then
         errors <- getitem data "errors" ;;
         Ret (failure_record username errors)
       else
         d <- getitem data "data" ;;
         user_data <- getitem d "matchedUser" ;;
         if negb (truthy user_data) then
           Ret (failure_record username (VStr "User not found."))
         else
           profile <- getitem user_data "profile" ;;
           stats <- getitem user_data "submitStats" ;;
           submissions <- getitem stats "acSubmissionNum" ;;
           badges <- get_default user_data "badges" (VList []) ;;
           ranking <- getitem profile "ranking" ;;
           items <- iterate submissions ;;
           total <- sum_counts 0 items ;;
           shown <- (if truthy badges then
                       badge_items <- iterate badges ;;
                       names <- display_names badge_items ;;
                       joined <- join ", " (VList names) ;;
                       Ret (VStr joined)
                     else Ret (VStr "None")) ;;
           Ret (success_record username ranking (total / 2) shown))%outcome
      (fun e =>
         Ret (failure_record username (VStr ("Invalid API response: " ++ e)))).

Definition fetch_user_data (net : network) (username : string) : M record :=
  (response <- post net username ;;
   lift (normalize username response))%M.

Definition fetch_all_users (net : network) (usernames : list string)
    : M (list record) :=
  append_each (fetch_user_data net) usernames [].

(** The uploaded file, seen through
    [uploaded_file.getvalue().decode("utf-8")]. *)
Record uploaded_file : Type := mkUpload {
  decoded : outcome string
}.

Definition get_usernames_from_file (uploaded : uploaded_file)
    : M (list string) :=
  match decoded uploaded with
  | Ret text =>
      let names := map strip (splitlines text) in
      if len names >? 200
      then (emit (StError "The number of usernames cannot exceed 100.") ;;
            ret [])%M
      else ret names
  | Raise e => (emit (StErrorReading e) ;; ret [])%M
  end.

(** *** The data frame

    [pd.DataFrame(data)] has one row per dictionary and one column per
    key.  A row is written here as the dictionary it comes from; the
    frame itself holds a missing entry wherever a dictionary lacks a
    key. *)

(** [reset_index(drop=True)] followed by [df.index += 1]. *)
Fixpoint reindex (start : Z) (rows : list record) : list (Z * record) :=
  match rows with
  | [] => []
  | row :: rest => (start, row) :: reindex (start + 1) rest
  end.

Section Frame.

(** How pandas orders the rows of a frame that has a [ranking] column is
    pandas' own work and a parameter here.  What is assumed of it, where
    anything is, is [sorts_like_pandas] below. *)
Variable sort_frame : list record -> outcome (list record).

(** [df.sort_values(by='ranking', ascending=True)]: a [KeyError] when no
    row has a ranking, so that the frame has no such column. *)
Definition sort_values (data : list record) : outcome (list record) :=
  if negb (existsb (has_key "ranking") data) then Raise (KeyError "ranking")
  else sort_frame data.

Definition display_data (data : list record) : M unit :=
  match data with
  | _ :: _ =>
      (sorted <- lift (sort_values data) ;;
       emit (StDataframe (reindex 1 sorted)))%M
  | [] => emit (StWarning "No data to display.")
  end.

(** [main]: [uploaded] is what the upload widget returns. *)
Definition main (uploaded : option uploaded_file) (net : network) : M unit :=
  (emit (StTitle "LeetCode User Fetcher") ;;
   match uploaded with
   | Some f =>
       names <- get_usernames_from_file f ;;
       match names with
       | _ :: _ =>
           emit (StWrite ("Fetching data for " ++ str_int (len names)
                          ++ " users...")) ;;
           user_data_list <- fetch_all_users net names ;;
           display_data user_data_list
       | [] => ret tt
       end
   | None => ret tt
   end)%M.

End Frame.

End App.

(** ** What is taken from pandas *)

(** The entry of a row in the [ranking] column: [Some None] is a missing
    entry (no key, or [None]), [None] an entry that is neither missing
    nor an integer. *)
Definition ranking_entry (row : record) : option (option Z) :=
  match dict_get "ranking" row with
  | None => Some None
  | Some VNone => Some None
  | Some (VInt z) => Some (Some z)
  | Some _ => None
  end.

(** A ranking the column holds exactly whichever type pandas gives it,
    64-bit integer or 64-bit float: a missing entry, or an integer of
    magnitude at most 2^53. *)
Definition small_ranking (row : record) : bool :=
  match ranking_entry row with
  | Some None => true
  | Some (Some z) => Z.abs z <=? 2 ^ 53
  | None => false
  end.

Definition small_rankings (data : list record) : bool :=
  forallb small_ranking data.

(** The number of a row in such a column: [None] is a missing entry. *)
Definition sort_key (row : record) : option Z :=
  match ranking_entry row with
  | Some k => k
  | None => None
  end.

(** Ascending order with the missing entries last. *)
Definition ascending_leb (a b : option Z) : bool :=
  match a, b with
  | Some x, Some y => x <=? y
  | Some _, None => true
  | None, Some _ => false
  | None, None => true
  end.

Definition key_le (a b : record) : Prop :=
  ascending_leb (sort_key a) (sort_key b) = true.

(** What [sort_values(by='ranking', ascending=True)] is taken to do on a
    frame with a [ranking] column of small rankings: it returns the rows
    of the frame, each once, in ascending ranking with the missing
    entries last.  Nothing is assumed about rows of equal ranking, nor
    about columns holding anything else. *)
Definition sorts_like_pandas
    (sort_frame : list record -> outcome (list record)) : Prop :=
  forall data,
    existsb (has_key "ranking") data = true ->
    small_rankings data = true ->
    exists rows,
      sort_frame data = Ret rows /\
      Permutation data rows /\
      StronglySorted key_le rows.

(** A sort that does so, to run the examples with.  It keeps rows of
    equal ranking in their order, which pandas does not promise. *)
Fixpoint insert_by_ranking (row : record) (sorted : list record)
    : list record :=
  match sorted with
  | [] => [row]
  | r :: rest =>
      if ascending_leb (sort_key row) (sort_key r)
      then row :: sorted
      else r :: insert_by_ranking row rest
  end.

Fixpoint insertion_sort (data : list record) : list record :=
  match data with
  | [] => []
  | row :: rest => insert_by_ranking row (insertion_sort rest)
  end.

Definition sample_sort (data : list record) : outcome (list record) :=
  Ret (insertion_sort data).

(** ** The two entry points side by side *)

Inductive entry_point : Type :=
| CommandLine
| Web.

Definition normalize_at (ep : entry_point)
    : string -> response -> outcome record :=
  match ep with
  | CommandLine => Cli.normalize
  | Web => App.normalize
  end.

Definition fetch_user_data_at (ep : entry_point)
    : network -> string -> M record :=
  match ep with
  | CommandLine => Cli.fetch_user_data
  | Web => App.fetch_user_data
  end.

Definition fetch_all_users_at (ep : entry_point)
    : network -> list string -> M (list record) :=
  match ep with
  | CommandLine => Cli.fetch_all_users
  | Web => App.fetch_all_users
  end.

(** ** Vocabulary of the statements *)

Definition keys (r : record) : list string := map fst r.

Definition failure_fields : list string := ["username"; "error"].

Definition success_fields : list string :=
  ["username"; "ranking"; "problems_solved"; "badges"].

Definition total (counts : list Z) : Z := fold_right Z.add 0 counts.

(** The reply the next request for [username] gets in state [st], and
    the state once that request has been sent. *)
Definition reply_to (net : network) (st : state) (username : string)
    : response :=
  net (length (calls st)) username.

Definition after_request (st : state) (username : string) : state :=
  mkState (calls st ++ [username]) (shown st).

(** An entry of [acSubmissionNum] carrying the integer [count]. *)
Inductive count_entry : value -> Z -> Prop :=
| count_entry_intro (d : list (string * value)) (c : Z) :
    dict_get "count" d = Some (VInt c) -> count_entry (VDict d) c.

(** An entry of [badges] carrying the display name [name]. *)
Inductive badge_entry : value -> string -> Prop :=
| badge_entry_intro (d : list (string * value)) (name : string) :
    dict_get "displayName" d = Some (VStr name) -> badge_entry (VDict d) name.

(** The badge list of a matched user: a list of badge entries, or no
    [badges] key at all. *)
Inductive badge_list (user : list (string * value)) : list string -> Prop :=
| badges_absent :
    dict_get "badges" user = None -> badge_list user []
| badges_listed (items : list value) (names : list string) :
    dict_get "badges" user = Some (VList items) ->
    Forall2 badge_entry items names ->
    badge_list user names.

(** A reply of the shape the query of [fetch_user_data] asks for: status
    200, no [errors], and under [data.matchedUser] a [profile] with a
    [ranking], the accepted-submission counts and the badges. *)
Inductive well_formed (resp : response) (ranking : value) (counts : list Z)
    (names : list string) : Prop :=
| well_formed_intro (data d user profile stats : list (string * value))
    (submissions : list value) :
    status_code resp = 200 ->
    content resp = Parsed (VDict data) ->
    dict_get "errors" data = None ->
    dict_get "data" data = Some (VDict d) ->
    dict_get "matchedUser" d = Some (VDict user) ->
    dict_get "profile" user = Some (VDict profile) ->
    dict_get "ranking" profile = Some ranking ->
    dict_get "submitStats" user = Some (VDict stats) ->
    dict_get "acSubmissionNum" stats = Some (VList submissions) ->
    Forall2 count_entry submissions counts ->
    badge_list user names ->
    well_formed resp ranking counts names.

(** The text shown for a list of badge names. *)
Definition badge_text (names : list string) : string :=
  match names with
  | [] => "None"
  | _ :: _ => String.concat ", " names
  end.

(** ** Sample data *)

Definition submission (difficulty : string) (count : Z) : value :=
  VDict [("difficulty", VStr difficulty); ("count", VInt count)].

Definition badge (displayName : string) : value :=
  VDict [("displayName", VStr displayName)].

Definition matched_user (ranking : value) (submissions : list value)
    (extra : list (string * value)) : value :=
  VDict ([("username", VStr "alice");
          ("profile", VDict [("realName", VStr "Alice");
                             ("userAvatar", VStr "a.png");
                             ("ranking", ranking)]);
          ("submitStats", VDict [("acSubmissionNum", VList submissions)])]
         ++ extra).

Definition reply (user : value) : response :=
  mkResponse 200 (Parsed (VDict [("data", VDict [("matchedUser", user)])])).

Definition four_counts : list value :=
  [submission "Easy" 10; submission "Medium" 8; submission "Hard" 2;
   submission "All" 20].

Definition alice_reply : response :=
  reply (matched_user (VInt 50) four_counts
           [("badges", VList [badge "Knight"; badge "Guardian"])]).

Definition no_badges_reply : response :=
  reply (matched_user (VInt 50) four_counts [("badges", VList [])]).

Definition ghost_reply : response := reply VNone.

Definition empty_object_reply : response := mkResponse 200 (Parsed (VDict [])).

(** The body [{"data": {}}]: no [matchedUser] field at all. *)
Definition no_matched_user_reply : response :=
  mkResponse 200 (Parsed (VDict [("data", VDict [])])).

(** A remote end that knows every user but ["ghost"]. *)
Definition ghost_network : network :=
  fun _ username =>
    if String.eqb username "ghost" then ghost_reply else alice_reply.

(** A file system holding the one file [names.txt]. *)
Definition one_file : Cli.filesystem :=
  fun path =>
    if String.eqb path "names.txt"
    then Cli.Text ("alice" ++ String LF "ghost" ++ String LF "")
    else Cli.NotFound.

(** [n] names separated by commas: ["u,u,...,u"]. *)
Definition comma_list (n : nat) : string := String.concat "," (repeat "u" n).

(** [n] names, one per line. *)
Definition line_list (n : nat) : string :=
  String.concat (String LF "") (repeat "u" n).

Definition badges_missing_reply : response :=
  reply (matched_user (VInt 50) four_counts []).


Definition slow_ghost_fast : list record :=
  [success_record "slow" (VInt 1000) 3 (VStr "None");
   failure_record "ghost" (VStr "User not found.");
   success_record "fast" (VInt 50) 40 (VStr "Knight")].

(** The input errors of the two size checks. *)
Definition too_many_cli : exn :=
  ValueError "The number of usernames cannot exceed 100.".

Definition too_many_app : event :=
  StError "The number of usernames cannot exceed 100.".


(** ** Further vocabulary *)

(** The keys [fetch_user_data] looks up on its way through a reply. *)
Definition lookup_keys : list string :=
  ["data"; "matchedUser"; "profile"; "submitStats"; "acSubmissionNum";
   "ranking"; "count"; "displayName"].

(** The exceptions a reply of unexpected structure can cause. *)
Definition structural (e : exn) : Prop :=
  e = TypeError \/ exists k, e = KeyError k /\ In k lookup_keys.

(** A reply that is well formed up to its badges: [user] is the matched
    user, whose [badges] entry is left open. *)
Inductive profile_reply (resp : response) (user : list (string * value))
    (ranking : value) (counts : list Z) : Prop :=
| profile_reply_intro (data d profile stats : list (string * value))
    (submissions : list value) :
    status_code resp = 200 ->
    content resp = Parsed (VDict data) ->
    dict_get "errors" data = None ->
    dict_get "data" data = Some (VDict d) ->
    dict_get "matchedUser" d = Some (VDict user) ->
    dict_get "profile" user = Some (VDict profile) ->
    dict_get "ranking" profile = Some ranking ->
    dict_get "submitStats" user = Some (VDict stats) ->
    dict_get "acSubmissionNum" stats = Some (VList submissions) ->
    Forall2 count_entry submissions counts ->
    profile_reply resp user ranking counts.

(** The number of separators in a text. *)
Fixpoint count_char (sep : ascii) (s : string) : nat :=
  match s with
  | EmptyString => 0
  | String c rest =>
      if Ascii.eqb c sep then S (count_char sep rest) else count_char sep rest
  end.


(** Further sample data. *)
Definition null_badges_reply : response :=
  reply (matched_user (VInt 50) four_counts [("badges", VNone)]).

Definition errors_reply : response :=
  mkResponse 200
    (Parsed (VDict [("errors", VList [VStr "That user does not exist."])])).

Definition empty_object_network : network :=
  fun n _ => if (n =? 1)%nat then empty_object_reply else alice_reply.

(** A text that does not start with white space. *)
Definition starts_clean (l : list ascii) : Prop :=
  match l with
  | c :: _ => is_space c = false
  | [] => True
  end.

(** A name without white space at either end. *)
Definition trimmed (name : string) : Prop :=
  starts_clean (list_ascii_of_string name) /\
  starts_clean (rev (list_ascii_of_string name)).

(** The progress line of both programs. *)
Definition progress (names : list string) : string :=
  "Fetching data for " ++ str_int (len names) ++ " users...".

(** A batch of Failures only. *)
Definition ghosts_only : list record :=
  [failure_record "ghost" (VStr "User not found.");
   failure_record "nobody" (VStr "API error: 404")].

(** Uploads of two and of three names. *)
Definition two_lines : string := "alice" ++ String LF "ghost".

Definition three_lines : string :=
  "alice" ++ String LF "bob" ++ String LF "carol".

(** * Properties *)

(** ** The result monad *)

Lemma obind_Ret_inv {A B} (o : outcome A) (k : A -> outcome B) (b : B) :
  obind o k = Ret b -> exists a, o = Ret a /\ k a = Ret b.
Proof.
  destruct o as [a | e]; simpl; intros H.
  - exists a. split; [reflexivity | exact H].
  - discriminate H.
Qed.

Lemma except_ValueError_Ret_inv {A} (o : outcome A) (h : string -> outcome A)
    (r : A) :
  except_ValueError o h = Ret r ->
  o = Ret r \/ exists msg, o = Raise (ValueError msg) /\ h msg = Ret r.
Proof.
  destruct o as [a | e]; simpl; intros H.
  - left. exact H.
  - destruct e; try discriminate H. right. eauto.
Qed.

(** Splits a [Ret] equation over a chain of binds into its steps. *)
Ltac steps H :=
  repeat match type of H with
         | obind _ _ = Ret _ =>
             let a := fresh "x" in
             let Ha := fresh "Hstep" in
             apply obind_Ret_inv in H; destruct H as (a & Ha & H)
         | (if ?c then _ else _) = Ret _ => destruct c eqn:?
         end.

(** ** One request, then the normalisation *)

Lemma fetch_user_data_normalize (ep : entry_point) (net : network)
    (username : string) (st : state) :
  fetch_user_data_at ep net username st =
    (normalize_at ep username (reply_to net st username),
     after_request st username).
Proof. destruct ep; reflexivity. Qed.

(** ** Sums and badge names *)

Lemma sum_counts_entries (items : list value) (counts : list Z) :
  Forall2 count_entry items counts ->
  forall acc, sum_counts acc items = Ret (acc + total counts).
Proof.
  induction 1 as [| item c items counts Hentry _ IH]; intros acc; simpl.
  - f_equal. lia.
  - destruct Hentry as [d c Hc]. simpl. rewrite Hc. simpl.
    rewrite IH. f_equal. lia.
Qed.

Lemma display_names_entries (items : list value) (names : list string) :
  Forall2 badge_entry items names ->
  display_names items = Ret (map VStr names).
Proof.
  induction 1 as [| item name items names Hentry _ IH]; simpl.
  - reflexivity.
  - destruct Hentry as [d name Hn]. simpl. rewrite Hn. simpl.
    rewrite IH. reflexivity.
Qed.

Lemma all_str_names (names : list string) :
  all_str (map VStr names) = Ret names.
Proof.
  induction names as [| n names IH]; simpl.
  - reflexivity.
  - rewrite IH. reflexivity.
Qed.

Lemma join_names (sep : string) (names : list string) :
  join sep (VList (map VStr names)) = Ret (String.concat sep names).
Proof.
  unfold join. simpl. rewrite all_str_names. reflexivity.
Qed.

(** What the two versions make of the badge list of a well-formed reply:
    the value looked up, the names read from it. *)
Lemma badge_list_lookup (user : list (string * value)) (names : list string) :
  badge_list user names ->
  exists items,
    get_default (VDict user) "badges" (VList []) = Ret (VList items) /\
    display_names items = Ret (map VStr names) /\
    truthy (VList items) = match names with [] => false | _ => true end.
Proof.
  intros [Habsent | items names' Hfound Hentries].
  - exists []. simpl. rewrite Habsent. auto.
  - exists items. simpl. rewrite Hfound. split; [reflexivity |].
    split; [apply display_names_entries; exact Hentries |].
    destruct Hentries; reflexivity.
Qed.

(** ** Normalising a well-formed reply *)

Lemma normalize_well_formed_cli (username : string) (resp : response)
    (ranking : value) (counts : list Z) (names : list string) :
  well_formed resp ranking counts names ->
  Cli.normalize username resp =
    Ret (success_record username ranking (total counts / 2)
           (VList (map VStr names))).
Proof.
  intros [data d user profile stats submissions
            Hstatus Hbody Herrors Hdata Huser Hprofile Hranking Hstats Hsubs
            Hcounts Hbadges].
  destruct (badge_list_lookup user names Hbadges) as (items & Hget & Hnames & _).
  unfold Cli.normalize, response_json.
  rewrite Hstatus, Hbody. simpl.
  unfold has_key. rewrite Herrors, Hdata. simpl. rewrite Huser. simpl.
  assert (Hne : match user with [] => false | _ :: _ => true end = true).
  { destruct user; [discriminate Hprofile | reflexivity]. }
  rewrite Hne. simpl.
  rewrite Hprofile. simpl. rewrite Hstats. simpl. rewrite Hsubs. simpl.
  simpl in Hget. rewrite Hget. simpl. rewrite Hranking. simpl.
  rewrite (sum_counts_entries _ _ Hcounts). simpl.
  rewrite Hnames. reflexivity.
Qed.

Lemma normalize_well_formed_app (username : string) (resp : response)
    (ranking : value) (counts : list Z) (names : list string) :
  well_formed resp ranking counts names ->
  App.normalize username resp =
    Ret (success_record username ranking (total counts / 2)
           (VStr (badge_text names))).
Proof.
  intros [data d user profile stats submissions
            Hstatus Hbody Herrors Hdata Huser Hprofile Hranking Hstats Hsubs
            Hcounts Hbadges].
  destruct (badge_list_lookup user names Hbadges)
    as (items & Hget & Hnames & Htruthy).
  unfold App.normalize, response_json.
  rewrite Hstatus, Hbody. simpl.
  unfold has_key. rewrite Herrors, Hdata. simpl. rewrite Huser. simpl.
  assert (Hne : match user with [] => false | _ :: _ => true end = true).
  { destruct user; [discriminate Hprofile | reflexivity]. }
  rewrite Hne. simpl.
  rewrite Hprofile. simpl. rewrite Hstats. simpl. rewrite Hsubs. simpl.
  simpl in Hget. rewrite Hget. simpl. rewrite Hranking. simpl.
  rewrite (sum_counts_entries _ _ Hcounts). simpl.
  simpl in Htruthy. rewrite Htruthy.
  destruct names as [| n names].
  - reflexivity.
  - rewrite Hnames. cbn [obind].
    rewrite join_names. reflexivity.
Qed.

Lemma alice_reply_well_formed :
  well_formed alice_reply (VInt 50) [10; 8; 2; 20] ["Knight"; "Guardian"].
Proof.
  eapply well_formed_intro; try reflexivity.
  - repeat constructor.
  - eapply badges_listed; [reflexivity |]. repeat constructor.
Qed.

Lemma no_badges_reply_well_formed :
  well_formed no_badges_reply (VInt 50) [10; 8; 2; 20] [].
Proof.
  eapply well_formed_intro; try reflexivity.
  - repeat constructor.
  - eapply badges_listed; [reflexivity |]. constructor.
Qed.

(** C1.  On a well-formed successful reply whose accepted-submission
    entries carry the integer counts [counts], both versions of
    [fetch_user_data] return a Success dictionary whose [problems_solved] is
    the floor of the sum of the counts divided by 2. *)
Theorem problems_solved_is_half_the_sum :
  forall (ep : entry_point) (net : network) (username : string) (st : state)
         (ranking : value) (counts : list Z) (names : list string),
    well_formed (reply_to net st username) ranking counts names ->
    exists r,
      fetch_user_data_at ep net username st =
        (Ret r, after_request st username) /\
      keys r = success_fields /\
      dict_get "problems_solved" r = Some (VInt (total counts / 2)) /\
      2 * (total counts / 2) <= total counts < 2 * (total counts / 2) + 2.
Proof.
  intros ep net username st ranking counts names Hwf.
  assert (Hfloor : 2 * (total counts / 2) <= total counts
                   < 2 * (total counts / 2) + 2).
  { pose proof (Z.div_mod (total counts) 2 ltac:(lia)) as Hdm.
    pose proof (Z.mod_pos_bound (total counts) 2 ltac:(lia)) as Hb. lia. }
  rewrite fetch_user_data_normalize.
  destruct ep; simpl.
  - rewrite (normalize_well_formed_cli _ _ _ _ _ Hwf).
    eexists. split; [reflexivity |]. repeat split; try reflexivity; apply Hfloor.
  - rewrite (normalize_well_formed_app _ _ _ _ _ Hwf).
    eexists. split; [reflexivity |]. repeat split; try reflexivity; apply Hfloor.
Qed.

(** The counts 10, 8, 2 and 20 give 20 problems solved. *)
Lemma problems_solved_is_half_the_sum_witness :
  exists r,
    fetch_user_data_at CommandLine ghost_network "alice" initial =
      (Ret r, after_request initial "alice") /\
    keys r = success_fields /\
    dict_get "problems_solved" r = Some (VInt (total [10; 8; 2; 20] / 2)) /\
    2 * (total [10; 8; 2; 20] / 2) <= total [10; 8; 2; 20]
      < 2 * (total [10; 8; 2; 20] / 2) + 2.
Proof.
  apply (problems_solved_is_half_the_sum CommandLine ghost_network "alice"
           initial (VInt 50) [10; 8; 2; 20] ["Knight"; "Guardian"]).
  eapply well_formed_intro; try reflexivity.
  - repeat constructor.
  - eapply badges_listed; [reflexivity |]. repeat constructor.
Defined.

Example four_counts_give_twenty :
  Cli.normalize "alice" alice_reply =
    Ret (success_record "alice" (VInt 50) 20
           (VList [VStr "Knight"; VStr "Guardian"])) /\
  App.normalize "alice" alice_reply =
    Ret (success_record "alice" (VInt 50) 20 (VStr "Knight, Guardian")).
Proof. split; reflexivity. Qed.

(** ** The shape of the dictionaries returned *)

Lemma normalize_shape (ep : entry_point) (username : string)
    (resp : response) (r : record) :
  normalize_at ep username resp = Ret r ->
  (exists error, r = failure_record username error) \/
  (exists ranking solved badges,
      r = success_record username ranking solved badges).
Proof.
  destruct ep; simpl; unfold Cli.normalize, App.normalize; intros H;
    (destruct (negb (status_code resp =? 200));
     [ injection H as <-; left; eauto | ]);
    apply except_ValueError_Ret_inv in H;
    (destruct H as [H | (msg & _ & H)];
     [ | injection H as <-; left; eauto ]);
    steps H; try (injection H as <-); eauto 6.
Qed.

(** C7.  A dictionary returned by [fetch_user_data] has the fields of
    exactly one variant: [username] and [error], or [username], [ranking],
    [problems_solved] and [badges]; a Failure has none of the three Success
    fields and a Success has no [error]. *)
Theorem record_has_exactly_one_variant :
  forall (ep : entry_point) (net : network) (username : string)
         (st st' : state) (r : record),
    fetch_user_data_at ep net username st = (Ret r, st') ->
    dict_get "username" r = Some (VStr username) /\
    ((keys r = failure_fields /\
      has_key "ranking" r = false /\
      has_key "problems_solved" r = false /\
      has_key "badges" r = false)
     \/
     (keys r = success_fields /\ has_key "error" r = false)).
Proof.
  intros ep net username st st' r H.
  rewrite fetch_user_data_normalize in H. injection H as H _.
  destruct (normalize_shape ep username _ r H)
    as [(error & ->) | (ranking & solved & badges & ->)].
  - split; [reflexivity |]. left. repeat split.
  - split; [reflexivity |]. right. repeat split.
Qed.

Lemma record_has_exactly_one_variant_witness :
  dict_get "username" (failure_record "ghost" (VStr "User not found."))
    = Some (VStr "ghost") /\
  ((keys (failure_record "ghost" (VStr "User not found.")) = failure_fields /\
    has_key "ranking" (failure_record "ghost" (VStr "User not found.")) = false /\
    has_key "problems_solved" (failure_record "ghost" (VStr "User not found."))
      = false /\
    has_key "badges" (failure_record "ghost" (VStr "User not found.")) = false)
   \/
   (keys (failure_record "ghost" (VStr "User not found.")) = success_fields /\
    has_key "error" (failure_record "ghost" (VStr "User not found.")) = false)).
Proof.
  apply (record_has_exactly_one_variant Web ghost_network "ghost" initial
           (mkState ["ghost"] [])).
  reflexivity.
Defined.

(** ** Replies the normalisation does not survive *)

(** C2.  A reply with status 200 whose body is the JSON object [{}] makes
    [fetch_user_data] raise [KeyError] in both versions: the handler only
    catches [ValueError].  The request has been sent, no dictionary is
    returned, and [fetch_all_users] stops with the same exception. *)
Theorem fetch_user_data_raises_on_empty_object :
  forall (ep : entry_point) (username : string) (rest : list string),
    normalize_at ep username empty_object_reply = Raise (KeyError "data") /\
    fetch_user_data_at ep (fun _ _ => empty_object_reply) username initial =
      (Raise (KeyError "data"), mkState [username] []) /\
    fetch_all_users_at ep (fun _ _ => empty_object_reply) (username :: rest)
      initial = (Raise (KeyError "data"), mkState [username] []).
Proof.
  intros [] username rest; repeat split.
Qed.

(** ** User not found *)

(** C6.  A reply with status 200 and no error payload in which the
    [matchedUser] field is absent, as in the body [{"data": {}}], does not
    become the Failure ["User not found."]: the lookup raises [KeyError],
    which the handler for [ValueError] lets through, in both versions.
    The request has been sent and [fetch_all_users] stops with the same
    exception. *)
Theorem fetch_user_data_raises_on_absent_matched_user :
  forall (ep : entry_point) (username : string) (rest : list string),
    normalize_at ep username no_matched_user_reply =
      Raise (KeyError "matchedUser") /\
    fetch_user_data_at ep (fun _ _ => no_matched_user_reply) username initial =
      (Raise (KeyError "matchedUser"), mkState [username] []) /\
    fetch_all_users_at ep (fun _ _ => no_matched_user_reply) (username :: rest)
      initial = (Raise (KeyError "matchedUser"), mkState [username] []).
Proof.
  intros [] username rest; repeat split.
Qed.

(** X23.  For a reply whose body is an object with a [data] object whose
    [matchedUser] is there and falsy ([null] when the platform knows no
    such user, or an empty value), [fetch_user_data] answers in this
    order: any status but 200 gives the API error; otherwise an [errors]
    entry in the body is returned as the error; otherwise the error is
    exactly ["User not found."]. *)
Theorem user_not_found_after_status_and_errors :
  forall (ep : entry_point) (net : network) (username : string) (st : state)
         (data d : list (string * value)) (user_data : value),
    content (reply_to net st username) = Parsed (VDict data) ->
    dict_get "data" data = Some (VDict d) ->
    dict_get "matchedUser" d = Some user_data ->
    truthy user_data = false ->
    fetch_user_data_at ep net username st =
      (Ret (failure_record username
              (if negb (status_code (reply_to net st username) =? 200)
               then VStr ("API error: "
                          ++ str_int (status_code (reply_to net st username)))
               else match dict_get "errors" data with
                    | Some errors => errors
                    | None => VStr "User not found."
                    end)),
       after_request st username).
Proof.
  intros ep net username st data d user_data Hbody Hdata Huser Hfalsy.
  rewrite fetch_user_data_normalize. f_equal.
  destruct ep; simpl; unfold Cli.normalize, App.normalize, response_json;
    (destruct (negb (status_code (reply_to net st username) =? 200));
     [reflexivity |]);
    rewrite Hbody; simpl; unfold has_key;
    (destruct (dict_get "errors" data) as [errors |]; [reflexivity |]);
    simpl; rewrite Hdata; simpl; rewrite Huser; simpl; rewrite Hfalsy;
    reflexivity.
Qed.

Lemma user_not_found_after_status_and_errors_witness :
  fetch_user_data_at CommandLine ghost_network "ghost" initial =
    (Ret (failure_record "ghost" (VStr "User not found.")),
     after_request initial "ghost").
Proof.
  exact (user_not_found_after_status_and_errors CommandLine ghost_network
           "ghost" initial [("data", VDict [("matchedUser", VNone)])]
           [("matchedUser", VNone)] VNone
           eq_refl eq_refl eq_refl eq_refl).
Defined.

Example not_found_comes_last :
  Cli.normalize "ghost" (mkResponse 404 (content ghost_reply)) =
    Ret (failure_record "ghost" (VStr "API error: 404")) /\
  Cli.normalize "ghost"
    (mkResponse 200
       (Parsed (VDict [("errors", VList [VStr "boom"]);
                       ("data", VDict [("matchedUser", VNone)])]))) =
    Ret (failure_record "ghost" (VList [VStr "boom"])) /\
  App.normalize "ghost" ghost_reply =
    Ret (failure_record "ghost" (VStr "User not found.")).
Proof. repeat split. Qed.

(** ** The batch loop *)

Lemma append_each_returns (ep : entry_point) (net : network)
    (usernames : list string) :
  forall (results : list record) (st : state),
    (forall i u, nth_error usernames i = Some u ->
       exists r, normalize_at ep u (net (length (calls st) + i)%nat u) = Ret r) ->
    exists fetched,
      append_each (fetch_user_data_at ep net) usernames results st =
        (Ret (results ++ fetched), mkState (calls st ++ usernames) (shown st)) /\
      length fetched = length usernames /\
      forall i u, nth_error usernames i = Some u ->
        exists r, nth_error fetched i = Some r /\
          normalize_at ep u (net (length (calls st) + i)%nat u) = Ret r.
Proof.
  induction usernames as [| u rest IH]; intros results st Hall.
  - exists []. simpl. unfold ret. rewrite !app_nil_r.
    destruct st; simpl. split; [reflexivity |]. split; [reflexivity |].
    intros [| i] u H; discriminate H.
  - destruct (Hall 0%nat u eq_refl) as (r & Hr).
    rewrite Nat.add_0_r in Hr.
    destruct (IH (results ++ [r]) (mkState (calls st ++ [u]) (shown st)))
      as (fetched & Hrun & Hlen & Hnth).
    { intros i u' Hi. simpl. destruct (Hall (S i) u' Hi) as (r' & Hr').
      exists r'. rewrite length_app. simpl.
      replace (length (calls st) + 1 + i)%nat
        with (length (calls st) + S i)%nat by lia.
      exact Hr'. }
    exists (r :: fetched). split; [| split].
    + simpl. unfold bind at 1. rewrite fetch_user_data_normalize.
      unfold reply_to, after_request. rewrite Hr.
      rewrite Hrun. simpl. rewrite <- !app_assoc. reflexivity.
    + simpl. rewrite Hlen. reflexivity.
    + intros [| i] u' Hi; simpl in Hi |- *.
      * injection Hi as <-. exists r. rewrite Nat.add_0_r. auto.
      * destruct (Hnth i u' Hi) as (r' & Hfound & Hr'). exists r'.
        split; [exact Hfound |]. simpl in Hr'. rewrite length_app in Hr'.
        simpl in Hr'.
        replace (length (calls st) + S i)%nat
          with (length (calls st) + 1 + i)%nat by lia.
        exact Hr'.
Qed.

(** C3.  Whenever every fetch of the batch yields a dictionary, Success
    or Failure, [fetch_all_users] returns a list with exactly one
    dictionary per input name: it has the length of the input, its i-th
    entry is the outcome of the i-th request and bears the i-th name, and
    the requests sent are the input names in input order, repeated names
    included. *)
Theorem fetch_all_users_one_record_per_identifier :
  forall (ep : entry_point) (net : network) (usernames : list string)
         (st : state),
    (forall i u, nth_error usernames i = Some u ->
       exists r, normalize_at ep u (net (length (calls st) + i)%nat u) = Ret r) ->
    exists results,
      fetch_all_users_at ep net usernames st =
        (Ret results, mkState (calls st ++ usernames) (shown st)) /\
      length results = length usernames /\
      forall i u, nth_error usernames i = Some u ->
        exists r, nth_error results i = Some r /\
          normalize_at ep u (net (length (calls st) + i)%nat u) = Ret r /\
          dict_get "username" r = Some (VStr u).
Proof.
  intros ep net usernames st Hall.
  destruct (append_each_returns ep net usernames [] st Hall)
    as (fetched & Hrun & Hlen & Hnth).
  exists fetched. split; [| split].
  - destruct ep; exact Hrun.
  - exact Hlen.
  - intros i u Hi. destruct (Hnth i u Hi) as (r & Hfound & Hr).
    exists r. split; [exact Hfound |]. split; [exact Hr |].
    destruct (normalize_shape ep u _ r Hr)
      as [(error & ->) | (ranking & solved & badges & ->)]; reflexivity.
Qed.

(** A batch with a repeated name and a failing fetch in the middle. *)
Lemma fetch_all_users_one_record_per_identifier_witness :
  exists results,
    fetch_all_users_at CommandLine ghost_network ["alice"; "ghost"; "alice"]
      initial =
      (Ret results,
       mkState (calls initial ++ ["alice"; "ghost"; "alice"]) (shown initial)) /\
    length results = length ["alice"; "ghost"; "alice"] /\
    forall i u, nth_error ["alice"; "ghost"; "alice"] i = Some u ->
      exists r, nth_error results i = Some r /\
        normalize_at CommandLine u
          (ghost_network (length (calls initial) + i)%nat u) = Ret r /\
        dict_get "username" r = Some (VStr u).
Proof.
  apply (fetch_all_users_one_record_per_identifier CommandLine ghost_network
           ["alice"; "ghost"; "alice"] initial).
  intros [| [| [| i]]] u H; simpl in H;
    try (injection H as <-; eexists; reflexivity).
  destruct i; discriminate H.
Defined.

Example batch_with_failure_and_repeat :
  Cli.fetch_all_users ghost_network ["alice"; "ghost"; "alice"] initial =
    (Ret [success_record "alice" (VInt 50) 20
            (VList [VStr "Knight"; VStr "Guardian"]);
          failure_record "ghost" (VStr "User not found.");
          success_record "alice" (VInt 50) 20
            (VList [VStr "Knight"; VStr "Guardian"])],
     mkState ["alice"; "ghost"; "alice"] []).
Proof. reflexivity. Qed.

(** ** The plain-text table *)

(** C10.  In the plain-text table a Success with ranking 0 gets the same
    row as one whose ranking is [None]: the ranking cell reads ["N/A"] in
    both, whatever the other fields are. *)
Theorem rank_zero_shown_as_not_available :
  forall (username : string) (solved : Z),
    (forall badges : value,
        Cli.table_row (success_record username (VInt 0) solved badges) =
        Cli.table_row (success_record username VNone solved badges)) /\
    (forall names : list string,
        Cli.table_row
          (success_record username (VInt 0) solved (VList (map VStr names))) =
          Ret [VStr username; VStr "N/A"; VInt solved;
               VStr (badge_text names)] /\
        Cli.table_row
          (success_record username VNone solved (VList (map VStr names))) =
          Ret [VStr username; VStr "N/A"; VInt solved;
               VStr (badge_text names)]).
Proof.
  intros username solved. split.
  - intros badges. reflexivity.
  - intros names.
    assert (H : forall ranking, truthy ranking = false ->
              Cli.table_row
                (success_record username ranking solved
                   (VList (map VStr names))) =
              Ret [VStr username; VStr "N/A"; VInt solved;
                   VStr (badge_text names)]).
    { intros ranking Hfalsy. unfold Cli.table_row, or_else. simpl.
      rewrite Hfalsy. destruct names as [| n names]; [reflexivity |].
      change (truthy (VList (map VStr (n :: names)))) with true.
      cbv iota. rewrite join_names. reflexivity. }
    split; apply H; reflexivity.
Qed.

Example rank_one_is_shown :
  Cli.table_row (success_record "alice" (VInt 1) 20 (VList [])) =
    Ret [VStr "alice"; VInt 1; VInt 20; VStr "None"].
Proof. reflexivity. Qed.

(** ** Input errors *)

(** When [get_usernames] raises, the command-line program prints the
    error and sends nothing. *)
Lemma main_input_error (a : Cli.args) (fs : Cli.filesystem) (net : network)
    (e : exn) (st : state) :
  Cli.get_usernames a fs = Raise e ->
  Cli.main a fs net st =
    (Ret tt, mkState (calls st) (shown st ++ [PrintError e])).
Proof.
  intros H. unfold Cli.main, except_Exception, bind, lift.
  rewrite H. reflexivity.
Qed.

(** C5.  A source with more tokens than the cap of its entry point (100
    on the command line, 200 for an uploaded file) fails as a whole: the
    command-line program prints the error raised by [get_usernames], the
    page shows the error and gets an empty list of names, and in both the
    run ends without a single request sent. *)
Theorem oversized_batch_sends_no_request :
  (forall (a : Cli.args) (fs : Cli.filesystem) (net : network)
          (names : list string),
      Cli.read_usernames a fs = Ret names ->
      100 < len names ->
      Cli.get_usernames a fs = Raise too_many_cli /\
      Cli.main a fs net initial =
        (Ret tt, mkState [] [PrintError too_many_cli])) /\
  (forall (sort_frame : list record -> outcome (list record))
          (text : string) (net : network),
      200 < len (map strip (splitlines text)) ->
      App.get_usernames_from_file (App.mkUpload (Ret text)) initial =
        (Ret [], mkState [] [too_many_app]) /\
      App.main sort_frame (Some (App.mkUpload (Ret text))) net initial =
        (Ret tt, mkState [] [StTitle "LeetCode User Fetcher"; too_many_app])).
Proof.
  split.
  - intros a fs net names Hread Hmany.
    assert (Hraise : Cli.get_usernames a fs = Raise too_many_cli).
    { unfold Cli.get_usernames. rewrite Hread. simpl.
      destruct (Z.gtb_spec (len names) 100); [reflexivity | lia]. }
    split; [exact Hraise |].
    rewrite (main_input_error _ _ _ _ _ Hraise). reflexivity.
  - intros sort_frame text net Hmany.
    assert (Hget : App.get_usernames_from_file (App.mkUpload (Ret text)) initial
                   = (Ret [], mkState [] [too_many_app])).
    { unfold App.get_usernames_from_file. simpl.
      destruct (Z.gtb_spec (len (map strip (splitlines text))) 200);
        [reflexivity | lia]. }
    split; [exact Hget |].
    unfold App.main. unfold bind at 1. simpl emit.
    unfold bind at 1.
    unfold App.get_usernames_from_file in *. simpl in *.
    destruct (Z.gtb_spec (len (map strip (splitlines text))) 200);
      [reflexivity | lia].
Qed.

Lemma oversized_batch_sends_no_request_witness :
  (Cli.get_usernames (Cli.mkArgs None (Some (comma_list 101)))
     (fun _ => Cli.NotFound) = Raise too_many_cli /\
   Cli.main (Cli.mkArgs None (Some (comma_list 101))) (fun _ => Cli.NotFound)
     ghost_network initial =
     (Ret tt, mkState [] [PrintError too_many_cli])) /\
  (App.get_usernames_from_file (App.mkUpload (Ret (line_list 201))) initial =
     (Ret [], mkState [] [too_many_app]) /\
   App.main (fun _ => Raise TypeError)
     (Some (App.mkUpload (Ret (line_list 201)))) ghost_network initial =
     (Ret tt, mkState [] [StTitle "LeetCode User Fetcher"; too_many_app])).
Proof.
  split.
  - apply (proj1 oversized_batch_sends_no_request
             (Cli.mkArgs None (Some (comma_list 101))) (fun _ => Cli.NotFound)
             ghost_network (repeat "u" 101)).
    + vm_compute. reflexivity.
    + vm_compute. reflexivity.
  - apply (proj2 oversized_batch_sends_no_request (fun _ => Raise TypeError)
             (line_list 201) ghost_network).
    vm_compute. reflexivity.
Defined.

Example hundred_names_are_fetched :
  calls (snd (Cli.main (Cli.mkArgs None (Some (comma_list 100)))
                (fun _ => Cli.NotFound) ghost_network initial))
    = repeat "u" 100.
Proof. vm_compute. reflexivity. Qed.

(** C9.  On the command line the two sources are never combined: when
    [--file] is given, the names are those of the file alone, whatever
    [--usernames] holds.  When neither is given, [get_usernames] raises
    the input error and the program prints it without sending a request. *)
Theorem file_and_usernames_never_combined :
  forall (path list : string) (fs : Cli.filesystem) (net : network),
    path <> "" ->
    Cli.get_usernames (Cli.mkArgs (Some path) (Some list)) fs =
      Cli.get_usernames (Cli.mkArgs (Some path) None) fs /\
    Cli.main (Cli.mkArgs (Some path) (Some list)) fs net initial =
      Cli.main (Cli.mkArgs (Some path) None) fs net initial /\
    Cli.get_usernames (Cli.mkArgs None None) fs =
      Raise (ValueError "Provide either a file path or a list of usernames.") /\
    Cli.main (Cli.mkArgs None None) fs net initial =
      (Ret tt,
       mkState []
         [PrintError
            (ValueError "Provide either a file path or a list of usernames.")]).
Proof.
  intros path list fs net Hpath.
  assert (Hgiven : Cli.given (Some path) = Some path).
  { unfold Cli.given. destruct (String.eqb_spec path ""); congruence. }
  assert (Hsame : Cli.get_usernames (Cli.mkArgs (Some path) (Some list)) fs =
                  Cli.get_usernames (Cli.mkArgs (Some path) None) fs).
  { unfold Cli.get_usernames, Cli.read_usernames. simpl Cli.file.
    rewrite Hgiven. reflexivity. }
  split; [exact Hsame |]. split; [| split; reflexivity].
  unfold Cli.main. rewrite Hsame. reflexivity.
Qed.

Lemma file_and_usernames_never_combined_witness :
  Cli.get_usernames (Cli.mkArgs (Some "names.txt") (Some "bob,carol")) one_file =
    Cli.get_usernames (Cli.mkArgs (Some "names.txt") None) one_file /\
  Cli.main (Cli.mkArgs (Some "names.txt") (Some "bob,carol")) one_file
    ghost_network initial =
    Cli.main (Cli.mkArgs (Some "names.txt") None) one_file ghost_network initial /\
  Cli.get_usernames (Cli.mkArgs None None) one_file =
    Raise (ValueError "Provide either a file path or a list of usernames.") /\
  Cli.main (Cli.mkArgs None None) one_file ghost_network initial =
    (Ret tt,
     mkState []
       [PrintError
          (ValueError "Provide either a file path or a list of usernames.")]).
Proof.
  apply (file_and_usernames_never_combined "names.txt" "bob,carol" one_file
           ghost_network).
  discriminate.
Defined.

Example both_given_reads_the_file :
  Cli.get_usernames (Cli.mkArgs (Some "names.txt") (Some "bob,carol")) one_file
    = Ret ["alice"; "ghost"].
Proof. reflexivity. Qed.

(** ** The sorted data frame *)









Lemma reindex_In (rows : list record) :
  forall (start i : Z) (r : record),
    In (i, r) (App.reindex start rows) <->
    exists p, nth_error rows p = Some r /\ i = start + Z.of_nat p.
Proof.
  induction rows as [| row rows IH]; intros start i r; simpl.
  - split; [intros [] | intros ([| p] & H & _); discriminate H].
  - rewrite IH. split.
    + intros [H | (p & Hp & ->)].
      * injection H as <- <-. exists 0%nat. split; [reflexivity | lia].
      * exists (S p). split; [exact Hp | lia].
    + intros ([| p] & Hp & ->); simpl in Hp.
      * left. injection Hp as <-. f_equal. lia.
      * right. exists p. split; [exact Hp | lia].
Qed.


Lemma ranking_column_exists (data : list record) (row : record) :
  In row data -> has_key "ranking" row = true ->
  existsb (has_key "ranking") data = true.
Proof.
  intros Hin Hkey. apply existsb_exists. exists row. split; assumption.
Qed.

(** The page shows what the sort returns, numbered from 1. *)
Lemma display_data_frame
    (sort_frame : list record -> outcome (list record))
    (data rows : list record) (row : record) (st : state) :
  In row data ->
  has_key "ranking" row = true ->
  sort_frame data = Ret rows ->
  App.display_data sort_frame data st =
    (Ret tt,
     mkState (calls st) (shown st ++ [StDataframe (App.reindex 1 rows)])).
Proof.
  intros Hin Hkey Hsort.
  pose proof (ranking_column_exists data row Hin Hkey) as Hcolumn.
  destruct data as [| first rest]; [destruct Hin |].
  unfold App.display_data, App.sort_values, bind, lift, emit.
  rewrite Hcolumn. simpl negb. cbv iota. rewrite Hsort. reflexivity.
Qed.

Lemma shown_in_frame (data rows : list record) (row : record) :
  Permutation data rows ->
  In row data -> exists i, In (i, row) (App.reindex 1 rows).
Proof.
  intros Hperm Hin.
  apply (Permutation_in _ Hperm) in Hin.
  apply In_nth_error in Hin. destruct Hin as (p & Hp).
  exists (1 + Z.of_nat p). apply reindex_In. eauto.
Qed.

(** ** Display order *)





Example page_shows_rank_50_first :
  App.display_data sample_sort slow_ghost_fast initial =
    (Ret tt,
     mkState []
       [StDataframe
          [(1, success_record "fast" (VInt 50) 40 (VStr "Knight"));
           (2, success_record "slow" (VInt 1000) 3 (VStr "None"));
           (3, failure_record "ghost" (VStr "User not found."))]]).
Proof. reflexivity. Qed.

Example page_without_any_ranking :
  App.display_data (fun _ => Raise TypeError)
    [failure_record "ghost" (VStr "User not found.")] initial =
    (Raise (KeyError "ranking"), initial).
Proof. reflexivity. Qed.

(** ** Empty badge lists *)

(** Against C8 as it stands: on the page a reply with an empty badge
    list yields a Success whose [badges] field is the text ["None"], not
    an empty sequence. *)
Lemma app_empty_badges_field_is_text :
  App.fetch_user_data (fun _ _ => no_badges_reply) "alice" initial =
    (Ret (success_record "alice" (VInt 50) 20 (VStr "None")),
     mkState ["alice"] []) /\
  dict_get "badges" (success_record "alice" (VInt 50) 20 (VStr "None"))
    <> Some (VList []).
Proof. split; [reflexivity | discriminate]. Qed.

(** C8, for each entry point.  For a reply that is well formed and whose
    badge list is empty or missing, [fetch_user_data] returns a Success in
    both versions.  On the command line its [badges] field is the empty
    list and the table shows ["None"] in the badges cell.  On the page its
    [badges] field is the text ["None"] itself, and the frame, sorted as
    pandas is taken to sort, shows the dictionary as it is. *)
Theorem empty_badges_by_entry_point :
  forall (net : network) (username : string) (st : state) (ranking : value)
         (counts : list Z),
    well_formed (reply_to net st username) ranking counts [] ->
    (Cli.fetch_user_data net username st =
       (Ret (success_record username ranking (total counts / 2) (VList [])),
        after_request st username) /\
     Cli.table_row
       (success_record username ranking (total counts / 2) (VList [])) =
       Ret [VStr username; or_else ranking (VStr "N/A");
            VInt (total counts / 2); VStr "None"]) /\
    (App.fetch_user_data net username st =
       (Ret (success_record username ranking (total counts / 2) (VStr "None")),
        after_request st username) /\
     forall (sort_frame : list record -> outcome (list record))
            (data : list record) (st' : state),
       sorts_like_pandas sort_frame ->
       small_rankings data = true ->
       In (success_record username ranking (total counts / 2) (VStr "None"))
          data ->
       exists rows,
         App.display_data sort_frame data st' =
           (Ret tt, mkState (calls st') (shown st' ++ [StDataframe rows])) /\
         exists i,
           In (i, success_record username ranking (total counts / 2)
                    (VStr "None")) rows).
Proof.
  intros net username st ranking counts Hwf. split; split.
  - rewrite (fetch_user_data_normalize CommandLine). simpl.
    rewrite (normalize_well_formed_cli username _ ranking counts [] Hwf).
    reflexivity.
  - reflexivity.
  - rewrite (fetch_user_data_normalize Web). simpl.
    rewrite (normalize_well_formed_app username _ ranking counts [] Hwf).
    reflexivity.
  - intros sort_frame data st' Hpandas Hsmall Hin.
    destruct (Hpandas data (ranking_column_exists data _ Hin eq_refl) Hsmall)
      as (sorted & Hsort & Hperm & _).
    exists (App.reindex 1 sorted). split.
    + exact (display_data_frame sort_frame data sorted _ st' Hin eq_refl Hsort).
    + exact (shown_in_frame data sorted _ Hperm Hin).
Qed.

Lemma empty_badges_by_entry_point_witness :
  (Cli.fetch_user_data (fun _ _ => badges_missing_reply) "alice" initial =
     (Ret (success_record "alice" (VInt 50) (total [10; 8; 2; 20] / 2)
             (VList [])),
      after_request initial "alice") /\
   Cli.table_row
     (success_record "alice" (VInt 50) (total [10; 8; 2; 20] / 2) (VList [])) =
     Ret [VStr "alice"; or_else (VInt 50) (VStr "N/A");
          VInt (total [10; 8; 2; 20] / 2); VStr "None"]) /\
  (App.fetch_user_data (fun _ _ => badges_missing_reply) "alice" initial =
     (Ret (success_record "alice" (VInt 50) (total [10; 8; 2; 20] / 2)
             (VStr "None")),
      after_request initial "alice") /\
   forall (sort_frame : list record -> outcome (list record))
          (data : list record) (st' : state),
     sorts_like_pandas sort_frame ->
     small_rankings data = true ->
     In (success_record "alice" (VInt 50) (total [10; 8; 2; 20] / 2)
           (VStr "None")) data ->
     exists rows,
       App.display_data sort_frame data st' =
         (Ret tt, mkState (calls st') (shown st' ++ [StDataframe rows])) /\
       exists i,
         In (i, success_record "alice" (VInt 50) (total [10; 8; 2; 20] / 2)
                  (VStr "None")) rows).
Proof.
  apply (empty_badges_by_entry_point (fun _ _ => badges_missing_reply) "alice"
           initial (VInt 50) [10; 8; 2; 20]).
  eapply well_formed_intro; try reflexivity.
  - repeat constructor.
  - apply badges_absent. reflexivity.
Defined.

Example empty_badges_end_to_end :
  Cli.main (Cli.mkArgs None (Some "alice")) one_file
    (fun _ _ => no_badges_reply) initial =
    (Ret tt,
     mkState ["alice"]
       [Print "Fetching data for 1 users...";
        PrintTable Cli.field_names
          [[VStr "alice"; VInt 50; VInt 20; VStr "None"]]]) /\
  App.main sample_sort (Some (App.mkUpload (Ret "alice")))
    (fun _ _ => no_badges_reply) initial =
    (Ret tt,
     mkState ["alice"]
       [StTitle "LeetCode User Fetcher";
        StWrite "Fetching data for 1 users...";
        StDataframe
          [(1, success_record "alice" (VInt 50) 20 (VStr "None"))]]).
Proof. split; reflexivity. Qed.

(** * Further properties *)

(** ** Failures by status, body and payload *)

(** X1.  A reply whose status is not 200 becomes the Failure
    ["API error: <status>"] in both versions, whatever its body holds; the
    body is not even decoded. *)
Theorem non_200_status_is_api_error :
  forall (ep : entry_point) (net : network) (username : string) (st : state),
    status_code (reply_to net st username) <> 200 ->
    fetch_user_data_at ep net username st =
      (Ret (failure_record username
              (VStr ("API error: "
                     ++ str_int (status_code (reply_to net st username))))),
       after_request st username).
Proof.
  intros ep net username st Hstatus.
  rewrite fetch_user_data_normalize. f_equal.
  destruct ep; simpl; unfold Cli.normalize, App.normalize;
    destruct (Z.eqb_spec (status_code (reply_to net st username)) 200);
    (contradiction || reflexivity).
Qed.

Lemma non_200_status_is_api_error_witness :
  fetch_user_data_at Web
    (fun _ _ => mkResponse 503 (Malformed "Expecting value")) "alice" initial =
    (Ret (failure_record "alice" (VStr "API error: 503")),
     after_request initial "alice").
Proof.
  apply (non_200_status_is_api_error Web
           (fun _ _ => mkResponse 503 (Malformed "Expecting value")) "alice"
           initial).
  simpl. lia.
Defined.

(** X2.  A reply with status 200 whose body is not JSON becomes the
    Failure ["Invalid API response: <detail>"], [detail] being the message
    of the decoder. *)
Theorem malformed_body_is_invalid_response :
  forall (ep : entry_point) (net : network) (username : string) (st : state)
         (detail : string),
    status_code (reply_to net st username) = 200 ->
    content (reply_to net st username) = Malformed detail ->
    fetch_user_data_at ep net username st =
      (Ret (failure_record username
              (VStr ("Invalid API response: " ++ detail))),
       after_request st username).
Proof.
  intros ep net username st detail Hstatus Hbody.
  rewrite fetch_user_data_normalize. f_equal.
  destruct ep; simpl; unfold Cli.normalize, App.normalize, response_json;
    rewrite Hstatus, Hbody; reflexivity.
Qed.

Lemma malformed_body_is_invalid_response_witness :
  fetch_user_data_at CommandLine
    (fun _ _ => mkResponse 200 (Malformed "Expecting value")) "alice" initial =
    (Ret (failure_record "alice"
            (VStr "Invalid API response: Expecting value")),
     after_request initial "alice").
Proof.
  apply (malformed_body_is_invalid_response CommandLine
           (fun _ _ => mkResponse 200 (Malformed "Expecting value")) "alice"
           initial "Expecting value"); reflexivity.
Defined.

(** X3.  A reply with status 200 whose body is an object with an [errors]
    entry becomes a Failure whose error is that entry as it is, not
    turned into text, and nothing else of the body is looked at. *)
Theorem errors_payload_is_returned :
  forall (ep : entry_point) (net : network) (username : string) (st : state)
         (data : list (string * value)) (errors : value),
    status_code (reply_to net st username) = 200 ->
    content (reply_to net st username) = Parsed (VDict data) ->
    dict_get "errors" data = Some errors ->
    fetch_user_data_at ep net username st =
      (Ret (failure_record username errors), after_request st username).
Proof.
  intros ep net username st data errors Hstatus Hbody Herrors.
  rewrite fetch_user_data_normalize. f_equal.
  destruct ep; simpl; unfold Cli.normalize, App.normalize, response_json;
    rewrite Hstatus, Hbody; simpl; unfold has_key; rewrite Herrors; simpl;
    try rewrite Herrors; reflexivity.
Qed.

Lemma errors_payload_is_returned_witness :
  fetch_user_data_at CommandLine (fun _ _ => errors_reply) "ghost" initial =
    (Ret (failure_record "ghost" (VList [VStr "That user does not exist."])),
     after_request initial "ghost").
Proof.
  apply (errors_payload_is_returned CommandLine (fun _ _ => errors_reply)
           "ghost" initial
           [("errors", VList [VStr "That user does not exist."])]);
    reflexivity.
Defined.

(** ** The dictionary of a well-formed reply *)

(** X4.  On a well-formed reply the Success dictionary is determined
    field by field: [username] is the name that was asked for, [ranking]
    is the profile's ranking as it is ([None] included), and [badges]
    holds the display names in the order of the reply, as a list on the
    command line and joined by [", "] on the page. *)
Theorem well_formed_reply_exact_record :
  forall (net : network) (username : string) (st : state) (ranking : value)
         (counts : list Z) (names : list string),
    well_formed (reply_to net st username) ranking counts names ->
    Cli.fetch_user_data net username st =
      (Ret (success_record username ranking (total counts / 2)
              (VList (map VStr names))),
       after_request st username) /\
    App.fetch_user_data net username st =
      (Ret (success_record username ranking (total counts / 2)
              (VStr (badge_text names))),
       after_request st username).
Proof.
  intros net username st ranking counts names Hwf. split.
  - rewrite (fetch_user_data_normalize CommandLine). simpl.
    rewrite (normalize_well_formed_cli _ _ _ _ _ Hwf). reflexivity.
  - rewrite (fetch_user_data_normalize Web). simpl.
    rewrite (normalize_well_formed_app _ _ _ _ _ Hwf). reflexivity.
Qed.

Lemma well_formed_reply_exact_record_witness :
  Cli.fetch_user_data ghost_network "bob" initial =
    (Ret (success_record "bob" (VInt 50) (total [10; 8; 2; 20] / 2)
            (VList (map VStr ["Knight"; "Guardian"]))),
     after_request initial "bob") /\
  App.fetch_user_data ghost_network "bob" initial =
    (Ret (success_record "bob" (VInt 50) (total [10; 8; 2; 20] / 2)
            (VStr (badge_text ["Knight"; "Guardian"]))),
     after_request initial "bob").
Proof.
  apply (well_formed_reply_exact_record ghost_network "bob" initial (VInt 50)
           [10; 8; 2; 20] ["Knight"; "Guardian"]).
  eapply well_formed_intro; try reflexivity.
  - repeat constructor.
  - eapply badges_listed; [reflexivity |]. repeat constructor.
Defined.

(** ** What escapes [fetch_user_data] *)

Lemma obind_Raise_inv {A B} (o : outcome A) (k : A -> outcome B) (e : exn) :
  obind o k = Raise e ->
  o = Raise e \/ exists a, o = Ret a /\ k a = Raise e.
Proof.
  destruct o as [a | e']; simpl; intros H.
  - right. eauto.
  - left. injection H as <-. reflexivity.
Qed.

Lemma except_ValueError_Raise_inv {A} (o : outcome A) (f : string -> A)
    (e : exn) :
  except_ValueError o (fun msg => Ret (f msg)) = Raise e ->
  o = Raise e /\ forall msg, e <> ValueError msg.
Proof.
  destruct o as [a | e']; simpl; [discriminate |].
  destruct e'; try discriminate; intros H; injection H as <-;
    (split; [reflexivity | discriminate]).
Qed.

Lemma key_structural (k : string) :
  In k lookup_keys -> structural (KeyError k).
Proof. intros H. right. eauto. Qed.

Lemma getitem_Raise (v : value) (k : string) (e : exn) :
  getitem v k = Raise e -> e = TypeError \/ e = KeyError k.
Proof.
  destruct v; simpl; try (intros H; injection H as <-; auto).
  destruct (dict_get k entries); [discriminate |].
  intros H; injection H as <-; auto.
Qed.

Lemma getitem_structural (v : value) (k : string) (e : exn) :
  In k lookup_keys -> getitem v k = Raise e -> structural e.
Proof.
  intros Hk H. destruct (getitem_Raise _ _ _ H) as [-> | ->].
  - left. reflexivity.
  - apply key_structural. exact Hk.
Qed.

Lemma getitem_Ret_dict (v : value) (k : string) (x : value) :
  getitem v k = Ret x -> exists d, v = VDict d /\ dict_get k d = Some x.
Proof.
  destruct v; simpl; try discriminate.
  destruct (dict_get k entries) eqn:Hk; [| discriminate].
  intros H; injection H as <-. eauto.
Qed.

Lemma iterate_Raise (v : value) (e : exn) :
  iterate v = Raise e -> e = TypeError.
Proof. destruct v; simpl; intros H; congruence. Qed.

Lemma sum_counts_Raise (items : list value) :
  forall acc e, sum_counts acc items = Raise e -> structural e.
Proof.
  induction items as [| item items IH]; intros acc e; simpl; [discriminate |].
  intros H. apply obind_Raise_inv in H. destruct H as [H | (c & _ & H)].
  - apply (getitem_structural item "count"); [simpl; tauto | exact H].
  - apply obind_Raise_inv in H. destruct H as [H | (acc' & _ & H)].
    + left. destruct c; simpl in H; congruence.
    + apply (IH acc'). exact H.
Qed.

Lemma display_names_Raise (items : list value) (e : exn) :
  display_names items = Raise e -> structural e.
Proof.
  induction items as [| item items IH]; simpl; [discriminate |].
  intros H. apply obind_Raise_inv in H. destruct H as [H | (n & _ & H)].
  - apply (getitem_structural item "displayName"); [simpl; tauto | exact H].
  - apply obind_Raise_inv in H. destruct H as [H | (ns & _ & H)].
    + apply IH. exact H.
    + discriminate H.
Qed.

Lemma all_str_Raise (items : list value) (e : exn) :
  all_str items = Raise e -> e = TypeError.
Proof.
  induction items as [| item items IH]; simpl; [discriminate |].
  destruct item; try congruence.
  intros H. apply obind_Raise_inv in H. destruct H as [H | (ss & _ & H)].
  - apply IH. exact H.
  - discriminate H.
Qed.

Lemma join_Raise (sep : string) (v : value) (e : exn) :
  join sep v = Raise e -> e = TypeError.
Proof.
  unfold join. intros H.
  apply obind_Raise_inv in H. destruct H as [H | (items & _ & H)].
  - apply iterate_Raise in H. exact H.
  - apply obind_Raise_inv in H. destruct H as [H | (ss & _ & H)].
    + apply all_str_Raise in H. exact H.
    + discriminate H.
Qed.

Lemma contains_Raise (k : string) (v : value) (e : exn) :
  contains k v = Raise e -> e = TypeError.
Proof. destruct v; simpl; intros H; congruence. Qed.

(** The payload of a body that has [errors] is found unless the body is
    no object. *)
Lemma errors_lookup_Raise (data : value) (e : exn) :
  contains "errors" data = Ret true ->
  getitem data "errors" = Raise e -> e = TypeError.
Proof.
  destruct data; simpl; try congruence.
  unfold has_key. destruct (dict_get "errors" entries); congruence.
Qed.

(** Splits a [Raise] equation over a chain of binds: one goal per step
    that can have raised. *)
Ltac raise_steps H :=
  repeat match type of H with
         | obind _ _ = Raise _ =>
             let a := fresh "x" in
             let Ha := fresh "Hstep" in
             apply obind_Raise_inv in H; destruct H as [H | (a & Ha & H)]
         | (if ?c then _ else _) = Raise _ => destruct c eqn:?
         | Ret _ = Raise _ => discriminate H
         end.

Ltac structural_step H :=
  first
    [ apply contains_Raise in H; left; exact H
    | apply iterate_Raise in H; left; exact H
    | apply join_Raise in H; left; exact H
    | apply sum_counts_Raise in H; exact H
    | apply display_names_Raise in H; exact H
    | apply getitem_structural in H; [exact H | simpl; tauto]
    | match goal with
      | Hc : contains "errors" ?d = Ret true |- _ =>
          left; exact (errors_lookup_Raise d _ Hc H)
      end
    | match goal with
      | Hp : getitem ?u "profile" = Ret _ |- _ =>
          apply getitem_Ret_dict in Hp; destruct Hp as (? & -> & _);
          simpl in H;
          match type of H with
          | match ?o with _ => _ end = _ => destruct o; discriminate H
          end
      end ].

Lemma normalize_Raise (ep : entry_point) (username : string)
    (resp : response) (e : exn) :
  normalize_at ep username resp = Raise e ->
  structural e /\ status_code resp = 200 /\ exists v, content resp = Parsed v.
Proof.
  intros H.
  assert (Hstatus : status_code resp = 200).
  { destruct ep; simpl in H; unfold Cli.normalize, App.normalize in H;
      destruct (Z.eqb_spec (status_code resp) 200); simpl in H;
      congruence. }
  assert (Hbody : exists v, content resp = Parsed v).
  { destruct (content resp) as [detail | v] eqn:Hc; [| eauto].
    destruct ep; simpl in H;
      unfold Cli.normalize, App.normalize, response_json in H;
      rewrite Hstatus, Hc in H; discriminate H. }
  split; [| split; assumption].
  destruct Hbody as (v & Hc).
  destruct ep; simpl in H;
    unfold Cli.normalize, App.normalize, response_json in H;
    rewrite Hstatus, Hc in H; simpl in H;
    apply except_ValueError_Raise_inv in H; destruct H as (H & _);
    raise_steps H; structural_step H.
Qed.

(** X5.  Once a reply has arrived and its body has been decoded, the
    rest of [fetch_user_data] (everything after the request) raises only
    on a reply of status 200, and then only a [TypeError] or a [KeyError]
    for one of the keys it looks up: on a decoded body the handler for
    [ValueError] has nothing to catch and no [ValueError] comes out.
    Failures of the request itself and of the decoder are left aside. *)
Theorem decoded_reply_raises_only_on_structure :
  forall (ep : entry_point) (username : string) (resp : response)
         (v : value) (e : exn),
    content resp = Parsed v ->
    normalize_at ep username resp = Raise e ->
    structural e /\
    (forall msg, e <> ValueError msg) /\
    status_code resp = 200.
Proof.
  intros ep username resp v e _ H.
  destruct (normalize_Raise ep username resp e H) as (Hs & Hstatus & _).
  repeat split; try assumption.
  intros msg ->. destruct Hs as [Hs | (k & Hs & _)]; discriminate Hs.
Qed.

Lemma decoded_reply_raises_only_on_structure_witness :
  structural TypeError /\
  (forall msg, TypeError <> ValueError msg) /\
  status_code null_badges_reply = 200.
Proof.
  apply (decoded_reply_raises_only_on_structure CommandLine "alice"
           null_badges_reply
           (VDict [("data",
                    VDict [("matchedUser",
                            matched_user (VInt 50) four_counts
                              [("badges", VNone)])])])
           TypeError).
  - reflexivity.
  - reflexivity.
Defined.

(** ** The two versions compared *)

Lemma success_records_agree (username : string) (ranking : value)
    (solved : Z) (b b' : value) :
  let rc := success_record username ranking solved b in
  let ra := success_record username ranking solved b' in
  keys rc = keys ra /\
  (forall k, k <> "badges" -> dict_get k rc = dict_get k ra) /\
  (keys rc = failure_fields -> rc = ra).
Proof.
  simpl. split; [reflexivity |]. split; [| discriminate].
  intros k Hk.
  destruct (String.eqb k "username"); [reflexivity |].
  destruct (String.eqb k "ranking"); [reflexivity |].
  destruct (String.eqb k "problems_solved"); [reflexivity |].
  destruct (String.eqb_spec k "badges"); [contradiction | reflexivity].
Qed.

(** Merges the equations two runs over the same reply have in common. *)
Ltac same_steps :=
  repeat match goal with
         | Ha : ?t = Ret ?a, Hb : ?t = Ret ?b |- _ =>
             assert (a = b) by congruence; subst; clear Hb
         end.

(** A body that has been decoded never makes the handler run. *)
Ltac no_ValueError H :=
  exfalso;
  match type of H with
  | _ = Raise (ValueError ?msg) =>
      assert (Hs : structural (ValueError msg))
        by (raise_steps H; structural_step H);
      destruct Hs as [Hs | (? & Hs & _)]; discriminate Hs
  end.

Lemma normalize_agree (username : string) (resp : response)
    (rc ra : record) :
  Cli.normalize username resp = Ret rc ->
  App.normalize username resp = Ret ra ->
  keys rc = keys ra /\
  (forall k, k <> "badges" -> dict_get k rc = dict_get k ra) /\
  (keys rc = failure_fields -> rc = ra).
Proof.
  unfold Cli.normalize, App.normalize, response_json. intros Hc Ha.
  destruct (negb (status_code resp =? 200)).
  { injection Hc as <-. injection Ha as <-. auto. }
  destruct (content resp) as [detail | v].
  { simpl in Hc, Ha. injection Hc as <-. injection Ha as <-. auto. }
  simpl in Hc, Ha.
  apply except_ValueError_Ret_inv in Hc.
  destruct Hc as [Hc | (msg & Hc & _)]; [| no_ValueError Hc].
  apply except_ValueError_Ret_inv in Ha.
  destruct Ha as [Ha | (msg & Ha & _)]; [| no_ValueError Ha].
  steps Hc; steps Ha; same_steps; try congruence;
    try (injection Hc as <-); try (injection Ha as <-);
    auto using success_records_agree.
Qed.

(** X6.  Asked the same thing and given the same reply, the command-line
    and the page version of [fetch_user_data] agree whenever both return:
    the dictionaries have the same fields and the same values everywhere
    but under [badges], and a Failure of one is the very Failure of the
    other. *)
Theorem versions_agree_up_to_badges :
  forall (net : network) (username : string) (st stc sta : state)
         (rc ra : record),
    Cli.fetch_user_data net username st = (Ret rc, stc) ->
    App.fetch_user_data net username st = (Ret ra, sta) ->
    stc = sta /\
    keys rc = keys ra /\
    (forall k, k <> "badges" -> dict_get k rc = dict_get k ra) /\
    (keys rc = failure_fields -> rc = ra).
Proof.
  intros net username st stc sta rc ra Hc Ha.
  rewrite (fetch_user_data_normalize CommandLine) in Hc.
  rewrite (fetch_user_data_normalize Web) in Ha.
  injection Hc as Hc <-. injection Ha as Ha <-.
  split; [reflexivity |]. exact (normalize_agree _ _ _ _ Hc Ha).
Qed.

Lemma versions_agree_up_to_badges_witness :
  mkState ["alice"] [] = mkState ["alice"] [] /\
  keys (success_record "alice" (VInt 50) 20
          (VList [VStr "Knight"; VStr "Guardian"])) =
    keys (success_record "alice" (VInt 50) 20 (VStr "Knight, Guardian")) /\
  (forall k, k <> "badges" ->
     dict_get k (success_record "alice" (VInt 50) 20
                   (VList [VStr "Knight"; VStr "Guardian"])) =
     dict_get k (success_record "alice" (VInt 50) 20 (VStr "Knight, Guardian")))
  /\
  (keys (success_record "alice" (VInt 50) 20
           (VList [VStr "Knight"; VStr "Guardian"])) = failure_fields ->
   success_record "alice" (VInt 50) 20 (VList [VStr "Knight"; VStr "Guardian"])
     = success_record "alice" (VInt 50) 20 (VStr "Knight, Guardian")).
Proof.
  apply (versions_agree_up_to_badges ghost_network "alice" initial
           (mkState ["alice"] []) (mkState ["alice"] [])); reflexivity.
Defined.

Lemma profile_reply_prefix (username : string) (resp : response)
    (user : list (string * value)) (ranking : value) (counts : list Z)
    (b : value) :
  profile_reply resp user ranking counts ->
  dict_get "badges" user = Some b ->
  Cli.normalize username resp =
    except_ValueError
      (badge_items <- iterate b ;;
       names <- display_names badge_items ;;
       Ret (success_record username ranking (total counts / 2)
              (VList names)))%outcome
      (fun e =>
         Ret (failure_record username
                (VStr ("Invalid API response: " ++ e)))) /\
  App.normalize username resp =
    except_ValueError
      (shown <- (if truthy b then
                   badge_items <- iterate b ;;
                   names <- display_names badge_items ;;
                   joined <- join ", " (VList names) ;;
                   Ret (VStr joined)
                 else Ret (VStr "None")) ;;
       Ret (success_record username ranking (total counts / 2) shown))%outcome
      (fun e =>
         Ret (failure_record username
                (VStr ("Invalid API response: " ++ e)))).
Proof.
  intros [data d profile stats submissions
            Hstatus Hbody Herrors Hdata Huser Hprofile Hranking Hstats Hsubs
            Hcounts] Hb.
  assert (Hne : match user with [] => false | _ :: _ => true end = true).
  { destruct user; [discriminate Hprofile | reflexivity]. }
  split; unfold Cli.normalize, App.normalize, response_json;
    rewrite Hstatus, Hbody; simpl;
    unfold has_key; rewrite Herrors, Hdata; simpl; rewrite Huser; simpl;
    rewrite Hne; simpl;
    rewrite Hprofile; simpl; rewrite Hstats; simpl; rewrite Hsubs; simpl;
    rewrite Hb; simpl; rewrite Hranking; simpl;
    rewrite (sum_counts_entries _ _ Hcounts); reflexivity.
Qed.

(** X7.  A reply that is well formed except that its [badges] entry is
    [null] splits the two versions: the command-line [fetch_user_data]
    raises [TypeError], the page's returns a Success whose badges read
    ["None"]. *)
Theorem null_badges_split_the_versions :
  forall (net : network) (username : string) (st : state)
         (user : list (string * value)) (ranking : value) (counts : list Z),
    profile_reply (reply_to net st username) user ranking counts ->
    dict_get "badges" user = Some VNone ->
    Cli.fetch_user_data net username st =
      (Raise TypeError, after_request st username) /\
    App.fetch_user_data net username st =
      (Ret (success_record username ranking (total counts / 2) (VStr "None")),
       after_request st username).
Proof.
  intros net username st user ranking counts Hreply Hb.
  destruct (profile_reply_prefix username _ user ranking counts VNone
              Hreply Hb) as (Hc & Ha).
  split.
  - rewrite (fetch_user_data_normalize CommandLine). simpl. rewrite Hc.
    reflexivity.
  - rewrite (fetch_user_data_normalize Web). simpl. rewrite Ha. reflexivity.
Qed.

Lemma null_badges_split_the_versions_witness :
  Cli.fetch_user_data (fun _ _ => null_badges_reply) "alice" initial =
    (Raise TypeError, after_request initial "alice") /\
  App.fetch_user_data (fun _ _ => null_badges_reply) "alice" initial =
    (Ret (success_record "alice" (VInt 50) (total [10; 8; 2; 20] / 2)
            (VStr "None")),
     after_request initial "alice").
Proof.
  eapply (null_badges_split_the_versions (fun _ _ => null_badges_reply)
            "alice" initial).
  - eapply profile_reply_intro; try reflexivity. repeat constructor.
  - reflexivity.
Defined.

(** ** Rows of fetched dictionaries *)

(** X8.  The plain-text table can always lay out a dictionary that the
    command-line [fetch_user_data] returned, unless a badge name is not a
    string: the row has four cells and starts with the user name; a
    Failure reads [Error], [-], [-] and hides its error detail; the only
    exception possible is [TypeError]. *)
Theorem fetched_dictionaries_have_rows :
  forall (net : network) (username : string) (st st' : state) (r : record),
    Cli.fetch_user_data net username st = (Ret r, st') ->
    (keys r = failure_fields /\
     Cli.table_row r = Ret [VStr username; VStr "Error"; VStr "-"; VStr "-"])
    \/
    (keys r = success_fields /\
     ((exists ranking solved badges,
          Cli.table_row r = Ret [VStr username; ranking; VInt solved;
                                 VStr badges])
      \/ Cli.table_row r = Raise TypeError)).
Proof.
  intros net username st st' r H.
  rewrite (fetch_user_data_normalize CommandLine) in H. injection H as H _.
  destruct (normalize_shape CommandLine username _ r H)
    as [(error & ->) | (ranking & solved & badges & ->)].
  - left. split; reflexivity.
  - right. split; [reflexivity |].
    unfold Cli.table_row. simpl.
    destruct (truthy badges).
    + destruct (join ", " badges) as [joined | e] eqn:Hjoin; simpl.
      * left. exists (or_else ranking (VStr "N/A")), solved, joined.
        reflexivity.
      * right. apply join_Raise in Hjoin. subst e. reflexivity.
    + left. exists (or_else ranking (VStr "N/A")), solved, "None".
      reflexivity.
Qed.

Lemma fetched_dictionaries_have_rows_witness :
  (keys (failure_record "ghost" (VStr "User not found.")) = failure_fields /\
   Cli.table_row (failure_record "ghost" (VStr "User not found.")) =
     Ret [VStr "ghost"; VStr "Error"; VStr "-"; VStr "-"])
  \/
  (keys (failure_record "ghost" (VStr "User not found.")) = success_fields /\
   ((exists ranking solved badges,
        Cli.table_row (failure_record "ghost" (VStr "User not found.")) =
          Ret [VStr "ghost"; ranking; VInt solved; VStr badges])
    \/ Cli.table_row (failure_record "ghost" (VStr "User not found.")) =
         Raise TypeError)).
Proof.
  apply (fetched_dictionaries_have_rows ghost_network "ghost" initial
           (mkState ["ghost"] [])).
  reflexivity.
Defined.

(** ** The batch loop, whatever the fetches do *)

Lemma append_each_raises (ep : entry_point) (net : network)
    (usernames : list string) :
  forall (results : list record) (st : state) (k : nat) (u : string)
         (e : exn),
    nth_error usernames k = Some u ->
    (forall i v, (i < k)%nat -> nth_error usernames i = Some v ->
       exists r, normalize_at ep v (net (length (calls st) + i)%nat v) = Ret r) ->
    normalize_at ep u (net (length (calls st) + k)%nat u) = Raise e ->
    append_each (fetch_user_data_at ep net) usernames results st =
      (Raise e, mkState (calls st ++ firstn (S k) usernames) (shown st)).
Proof.
  induction usernames as [| name rest IH]; intros results st k u e Hk Hbefore He.
  - destruct k; discriminate Hk.
  - simpl append_each. unfold bind at 1.
    rewrite fetch_user_data_normalize. unfold reply_to, after_request.
    destruct k as [| k].
    + injection Hk as ->. rewrite Nat.add_0_r in He. rewrite He.
      destruct rest; reflexivity.
    + destruct (Hbefore 0%nat name ltac:(lia) eq_refl) as (r & Hr).
      rewrite Nat.add_0_r in Hr. rewrite Hr.
      rewrite (IH _ _ k u e Hk).
      * simpl calls. simpl shown. rewrite <- app_assoc. reflexivity.
      * intros i v Hi Hv. simpl calls. rewrite length_app. simpl.
        destruct (Hbefore (S i) v ltac:(lia) Hv) as (r' & Hr').
        exists r'.
        replace (length (calls st) + 1 + i)%nat
          with (length (calls st) + S i)%nat by lia.
        exact Hr'.
      * simpl calls. rewrite length_app. simpl.
        replace (length (calls st) + 1 + k)%nat
          with (length (calls st) + S k)%nat by lia.
        exact He.
Qed.

Lemma append_each_trace (ep : entry_point) (net : network)
    (usernames : list string) :
  forall (results : list record) (st : state),
    exists k,
      (k <= length usernames)%nat /\
      calls (snd (append_each (fetch_user_data_at ep net) usernames results st))
        = calls st ++ firstn k usernames /\
      shown (snd (append_each (fetch_user_data_at ep net) usernames results st))
        = shown st /\
      forall rs,
        fst (append_each (fetch_user_data_at ep net) usernames results st)
          = Ret rs ->
        length rs = (length results + length usernames)%nat.
Proof.
  induction usernames as [| name rest IH]; intros results st.
  - exists 0%nat. simpl. rewrite app_nil_r. repeat split; try lia.
    intros rs H. injection H as <-. lia.
  - simpl append_each. unfold bind at 1 2 3.
    rewrite fetch_user_data_normalize. unfold reply_to, after_request.
    destruct (normalize_at ep name (net (length (calls st)) name)) as [r | e].
    + destruct (IH (results ++ [r]) (mkState (calls st ++ [name]) (shown st)))
        as (k & Hk & Hcalls & Hshown & Hlen).
      exists (S k). simpl in Hcalls, Hshown |- *.
      split; [lia |]. split; [| split].
      * rewrite Hcalls, <- app_assoc. reflexivity.
      * exact Hshown.
      * intros rs Hrs. rewrite (Hlen rs Hrs), length_app. simpl. lia.
    + exists 1%nat. simpl. split; [lia |]. split; [| split].
      * destruct rest; reflexivity.
      * reflexivity.
      * discriminate.
Qed.

(** X9.  [fetch_all_users] stops at the first fetch that raises: the
    exception is passed on, the dictionaries gathered so far are lost,
    the names up to the failing one have been requested and none of the
    later ones is. *)
Theorem fetch_all_users_stops_at_first_exception :
  forall (ep : entry_point) (net : network) (usernames : list string)
         (st : state) (k : nat) (u : string) (e : exn),
    nth_error usernames k = Some u ->
    (forall i v, (i < k)%nat -> nth_error usernames i = Some v ->
       exists r, normalize_at ep v (net (length (calls st) + i)%nat v) = Ret r) ->
    normalize_at ep u (net (length (calls st) + k)%nat u) = Raise e ->
    fetch_all_users_at ep net usernames st =
      (Raise e, mkState (calls st ++ firstn (S k) usernames) (shown st)).
Proof.
  intros ep net usernames st k u e Hk Hbefore He.
  pose proof (append_each_raises ep net usernames [] st k u e Hk Hbefore He)
    as H.
  destruct ep; exact H.
Qed.

Lemma fetch_all_users_stops_at_first_exception_witness :
  fetch_all_users_at CommandLine empty_object_network
    ["alice"; "bob"; "carol"; "dave"] initial =
    (Raise (KeyError "data"),
     mkState (calls initial ++ firstn 2 ["alice"; "bob"; "carol"; "dave"])
       (shown initial)).
Proof.
  apply (fetch_all_users_stops_at_first_exception CommandLine
           empty_object_network ["alice"; "bob"; "carol"; "dave"] initial
           1%nat "bob" (KeyError "data")).
  - reflexivity.
  - intros [| i] v Hi Hv; [| lia]. injection Hv as <-.
    eexists. reflexivity.
  - reflexivity.
Defined.

(** ** Size of a run *)

Lemma get_usernames_Ret (a : Cli.args) (fs : Cli.filesystem)
    (names : list string) :
  Cli.get_usernames a fs = Ret names <->
  Cli.read_usernames a fs = Ret names /\ len names <= 100.
Proof.
  unfold Cli.get_usernames. split.
  - intros H. destruct (Cli.read_usernames a fs) as [ns | e];
      simpl in H; [| discriminate H].
    destruct (Z.gtb_spec (len ns) 100); [discriminate H |].
    injection H as <-. split; [reflexivity | lia].
  - intros (Hread & Hlen). rewrite Hread. simpl.
    destruct (Z.gtb_spec (len names) 100); [lia | reflexivity].
Qed.

Lemma cli_display_data_calls (data : list record) (st : state) :
  calls (snd (Cli.display_data data st)) = calls st.
Proof.
  unfold Cli.display_data, bind, lift.
  destruct (Cli.table_rows data); reflexivity.
Qed.

Lemma app_display_data_calls
    (sort_frame : list record -> outcome (list record))
    (data : list record) (st : state) :
  calls (snd (App.display_data sort_frame data st)) = calls st.
Proof.
  unfold App.display_data. destruct data as [| row rest]; [reflexivity |].
  unfold bind, lift.
  destruct (App.sort_values sort_frame (row :: rest)); reflexivity.
Qed.

Lemma firstn_len_le {A} (k : nat) (l : list A) : len (firstn k l) <= len l.
Proof. unfold len. rewrite length_firstn. lia. Qed.

Lemma bind_run {A B} (m : M A) (k : A -> M B) (st : state) :
  bind m k st =
    match m st with
    | (Ret a, st') => k a st'
    | (Raise e, st') => (Raise e, st')
    end.
Proof. reflexivity. Qed.

(** The requests of a command-line run are the first few of the names
    [get_usernames] returned. *)
Lemma cli_main_calls (a : Cli.args) (fs : Cli.filesystem) (net : network) :
  calls (snd (Cli.main a fs net initial)) = [] \/
  exists names k,
    Cli.get_usernames a fs = Ret names /\
    calls (snd (Cli.main a fs net initial)) = firstn k names.
Proof.
  unfold Cli.main, except_Exception. rewrite bind_run. unfold lift.
  destruct (Cli.get_usernames a fs) as [names | e] eqn:Hget;
    [| left; reflexivity].
  right. exists names.
  rewrite bind_run. unfold emit at 1. cbv beta iota.
  rewrite bind_run.
  destruct (append_each_trace CommandLine net names []
              (mkState (calls initial)
                 (shown initial ++
                  [Print ("Fetching data for " ++ str_int (len names)
                          ++ " users...")])))
    as (k & _ & Hcalls & _ & _).
  exists k. split; [reflexivity |].
  change (append_each (fetch_user_data_at CommandLine net) names [])
    with (Cli.fetch_all_users net names) in Hcalls.
  destruct (Cli.fetch_all_users net names _) as [[rs | e] st2];
    simpl in Hcalls.
  - pose proof (cli_display_data_calls rs st2) as Hd.
    destruct (Cli.display_data rs st2) as [[[] | e] st3]; simpl in Hd |- *;
      rewrite Hd; exact Hcalls.
  - simpl. exact Hcalls.
Qed.

Lemma get_usernames_from_file_run (uploaded : App.uploaded_file)
    (st : state) :
  exists names st',
    App.get_usernames_from_file uploaded st = (Ret names, st') /\
    calls st' = calls st /\
    len names <= 200 /\
    (forall ev, In ev (shown st') ->
       In ev (shown st) \/ forall text, ev <> StWarning text).
Proof.
  unfold App.get_usernames_from_file.
  destruct (App.decoded uploaded) as [text | e].
  - destruct (Z.gtb_spec (len (map strip (splitlines text))) 200).
    + eexists. eexists. split; [reflexivity |]. simpl.
      repeat split; try (unfold len; simpl; lia).
      intros ev Hin. apply in_app_or in Hin.
      destruct Hin as [Hin | [<- | []]]; [left; exact Hin | right; discriminate].
    + eexists. eexists. split; [reflexivity |].
      repeat split; try lia. intros ev Hin. left. exact Hin.
  - eexists. eexists. split; [reflexivity |]. simpl.
    repeat split; try (unfold len; simpl; lia).
    intros ev Hin. apply in_app_or in Hin.
    destruct Hin as [Hin | [<- | []]]; [left; exact Hin | right; discriminate].
Qed.

Lemma app_display_data_shown
    (sort_frame : list record -> outcome (list record))
    (data : list record) (st : state) :
  data <> [] ->
  forall ev, In ev (shown (snd (App.display_data sort_frame data st))) ->
    In ev (shown st) \/ forall text, ev <> StWarning text.
Proof.
  intros Hne ev. unfold App.display_data.
  destruct data as [| row rest]; [contradiction |].
  rewrite bind_run. unfold lift.
  destruct (App.sort_values sort_frame (row :: rest)); simpl.
  - intros Hin. apply in_app_or in Hin.
    destruct Hin as [Hin | [<- | []]]; [left; exact Hin | right; discriminate].
  - intros Hin. left. exact Hin.
Qed.

(** What a run of the page leaves behind: few requests and no
    warning. *)
Lemma app_main_trace
    (sort_frame : list record -> outcome (list record))
    (uploaded : option App.uploaded_file) (net : network) :
  exists o st,
    App.main sort_frame uploaded net initial = (o, st) /\
    len (calls st) <= 200 /\
    forall ev, In ev (shown st) -> forall text, ev <> StWarning text.
Proof.
  unfold App.main. rewrite bind_run. unfold emit at 1. cbv beta iota.
  destruct uploaded as [f |].
  2:{ eexists. eexists. split; [reflexivity |]. simpl.
      split; [unfold len; simpl; lia |].
      intros ev [<- | []]. discriminate. }
  rewrite bind_run.
  destruct (get_usernames_from_file_run f
              (mkState (calls initial)
                 (shown initial ++ [StTitle "LeetCode User Fetcher"])))
    as (names & st2 & Hrun & Hcalls & Hlen & Hshown).
  rewrite Hrun. cbv beta iota.
  assert (Hshown2 : forall ev, In ev (shown st2) ->
                      forall text, ev <> StWarning text).
  { intros ev Hin. destruct (Hshown ev Hin) as [[<- | []] | H];
      [discriminate | exact H]. }
  destruct names as [| n names].
  { eexists. eexists. split; [reflexivity |]. rewrite Hcalls.
    split; [unfold len; simpl; lia | exact Hshown2]. }
  rewrite bind_run. unfold emit at 1. cbv beta iota. rewrite bind_run.
  destruct (append_each_trace Web net (n :: names) []
              (mkState (calls st2)
                 (shown st2 ++
                  [StWrite ("Fetching data for "
                            ++ str_int (len (n :: names)) ++ " users...")])))
    as (k & _ & Hsent & Hkept & Hcount).
  change (append_each (fetch_user_data_at Web net) (n :: names) [])
    with (App.fetch_all_users net (n :: names)) in Hsent, Hkept, Hcount.
  assert (Hshown3 : forall st4, shown st4 = shown st2 ++
                      [StWrite ("Fetching data for "
                                ++ str_int (len (n :: names)) ++ " users...")] ->
                    forall ev, In ev (shown st4) ->
                      forall text, ev <> StWarning text).
  { intros st4 -> ev Hin. apply in_app_or in Hin.
    destruct Hin as [Hin | [<- | []]]; [apply Hshown2; exact Hin | discriminate]. }
  assert (Hsent' : forall st4, calls st4 = calls st2 ++ firstn k (n :: names) ->
                     len (calls st4) <= 200).
  { intros st4 ->. rewrite Hcalls. simpl.
    pose proof (firstn_len_le k (n :: names)). lia. }
  destruct (App.fetch_all_users net (n :: names) _) as [[rs | e] st4];
    simpl in Hsent, Hkept, Hcount.
  - pose proof (app_display_data_calls sort_frame rs st4) as Hdcalls.
    assert (Hrs : rs <> []).
    { specialize (Hcount rs eq_refl). destruct rs; discriminate. }
    pose proof (app_display_data_shown sort_frame rs st4 Hrs) as Hdshown.
    destruct (App.display_data sort_frame rs st4) as [o5 st5].
    simpl in Hdcalls, Hdshown.
    exists o5, st5. split; [reflexivity |].
    split; [apply Hsent'; rewrite Hdcalls; exact Hsent |].
    intros ev Hin. destruct (Hdshown ev Hin) as [Hin' | H]; [| exact H].
    apply (Hshown3 st4 Hkept). exact Hin'.
  - eexists. eexists. split; [reflexivity |].
    split; [apply Hsent'; exact Hsent | apply (Hshown3 st4 Hkept)].
Qed.

(** X10.  No run sends more requests than the cap of its entry point:
    at most 100 from the command line and at most 200 from the page,
    whatever the input, the replies and the failures on the way. *)
Theorem requests_stay_within_the_cap :
  (forall (a : Cli.args) (fs : Cli.filesystem) (net : network),
      len (calls (snd (Cli.main a fs net initial))) <= 100) /\
  (forall (sort_frame : list record -> outcome (list record))
          (uploaded : option App.uploaded_file) (net : network),
      len (calls (snd (App.main sort_frame uploaded net initial))) <= 200).
Proof.
  split.
  - intros a fs net.
    destruct (cli_main_calls a fs net) as [-> | (names & k & Hget & ->)].
    + unfold len. simpl. lia.
    + apply get_usernames_Ret in Hget. destruct Hget as (_ & Hlen).
      pose proof (firstn_len_le k names). lia.
  - intros sort_frame uploaded net.
    destruct (app_main_trace sort_frame uploaded net)
      as (o & st & -> & Hlen & _).
    exact Hlen.
Qed.

(** X11.  The page never shows its "no data" warning: [display_data] is
    only reached with a batch that has at least one dictionary, so the
    empty branch of [display_data] is dead in [main]. *)
Theorem page_never_warns_of_no_data :
  forall (sort_frame : list record -> outcome (list record))
         (uploaded : option App.uploaded_file) (net : network) (text : string),
    ~ In (StWarning text)
        (shown (snd (App.main sort_frame uploaded net initial))).
Proof.
  intros sort_frame uploaded net text Hin.
  destruct (app_main_trace sort_frame uploaded net)
    as (o & st & Hrun & _ & Hshown).
  rewrite Hrun in Hin. exact (Hshown _ Hin text eq_refl).
Qed.

(** X12.  A source within the cap is passed on as it is, and the cap
    itself is within: 100 tokens on the command line and 200 lines in an
    upload are accepted, names untouched and nothing shown. *)
Theorem batch_within_the_cap_is_accepted :
  (forall (a : Cli.args) (fs : Cli.filesystem) (names : list string),
      Cli.read_usernames a fs = Ret names ->
      len names <= 100 ->
      Cli.get_usernames a fs = Ret names) /\
  (forall (text : string) (st : state),
      len (map strip (splitlines text)) <= 200 ->
      App.get_usernames_from_file (App.mkUpload (Ret text)) st =
        (Ret (map strip (splitlines text)), st)).
Proof.
  split.
  - intros a fs names Hread Hlen. apply get_usernames_Ret. auto.
  - intros text st Hlen. unfold App.get_usernames_from_file. simpl.
    destruct (Z.gtb_spec (len (map strip (splitlines text))) 200);
      [lia | reflexivity].
Qed.

Lemma batch_within_the_cap_is_accepted_witness :
  Cli.get_usernames (Cli.mkArgs None (Some (comma_list 100)))
    (fun _ => Cli.NotFound) = Ret (repeat "u" 100) /\
  App.get_usernames_from_file (App.mkUpload (Ret (line_list 200))) initial =
    (Ret (map strip (splitlines (line_list 200))), initial).
Proof.
  split.
  - apply (proj1 batch_within_the_cap_is_accepted
             (Cli.mkArgs None (Some (comma_list 100))) (fun _ => Cli.NotFound)
             (repeat "u" 100)).
    + vm_compute. reflexivity.
    + vm_compute. discriminate.
  - apply (proj2 batch_within_the_cap_is_accepted (line_list 200) initial).
    vm_compute. discriminate.
Defined.

(** ** Runs of the command-line program *)

(** X13.  When the file named by [--file] cannot be opened, the
    command-line program gives up: a missing file raises the [ValueError]
    ["File not found: <path>"], any other failure is passed on as it is,
    [--usernames] is not used as a fallback, and [main] prints the error
    without sending a request. *)
Theorem unreadable_file_is_an_input_error :
  forall (path : string) (list : option string) (fs : Cli.filesystem)
         (net : network),
    path <> "" ->
    (fs path = Cli.NotFound ->
     Cli.get_usernames (Cli.mkArgs (Some path) list) fs =
       Raise (ValueError ("File not found: " ++ path)) /\
     Cli.main (Cli.mkArgs (Some path) list) fs net initial =
       (Ret tt,
        mkState [] [PrintError (ValueError ("File not found: " ++ path))])) /\
    (forall e, fs path = Cli.Unreadable e ->
     Cli.get_usernames (Cli.mkArgs (Some path) list) fs = Raise e /\
     Cli.main (Cli.mkArgs (Some path) list) fs net initial =
       (Ret tt, mkState [] [PrintError e])).
Proof.
  intros path list fs net Hpath.
  assert (Hgiven : Cli.given (Some path) = Some path).
  { unfold Cli.given. destruct (String.eqb_spec path ""); congruence. }
  split.
  - intros Hfs.
    assert (Hraise : Cli.get_usernames (Cli.mkArgs (Some path) list) fs =
                     Raise (ValueError ("File not found: " ++ path))).
    { unfold Cli.get_usernames, Cli.read_usernames. simpl Cli.file.
      rewrite Hgiven, Hfs. reflexivity. }
    split; [exact Hraise |].
    rewrite (main_input_error _ _ _ _ _ Hraise). reflexivity.
  - intros e Hfs.
    assert (Hraise : Cli.get_usernames (Cli.mkArgs (Some path) list) fs =
                     Raise e).
    { unfold Cli.get_usernames, Cli.read_usernames. simpl Cli.file.
      rewrite Hgiven, Hfs. reflexivity. }
    split; [exact Hraise |].
    rewrite (main_input_error _ _ _ _ _ Hraise). reflexivity.
Qed.

Lemma unreadable_file_is_an_input_error_witness :
  Cli.get_usernames (Cli.mkArgs (Some "nowhere.txt") (Some "alice,bob"))
    one_file = Raise (ValueError "File not found: nowhere.txt") /\
  Cli.main (Cli.mkArgs (Some "nowhere.txt") (Some "alice,bob")) one_file
    ghost_network initial =
    (Ret tt,
     mkState [] [PrintError (ValueError "File not found: nowhere.txt")]).
Proof.
  apply (proj1 (unreadable_file_is_an_input_error "nowhere.txt"
                  (Some "alice,bob") one_file ghost_network
                  ltac:(discriminate))).
  reflexivity.
Defined.

(** X14.  A command-line run in which every fetch yields a dictionary:
    the progress line with the number of names comes first, then one
    request per name in input order, then the table, printed once and
    holding the rows of the dictionaries in input order; if a row cannot
    be laid out, the error is printed in place of the table. *)
Theorem command_line_run_end_to_end :
  forall (a : Cli.args) (fs : Cli.filesystem) (net : network)
         (names : list string),
    Cli.get_usernames a fs = Ret names ->
    (forall i u, nth_error names i = Some u ->
       exists r, Cli.normalize u (net i u) = Ret r) ->
    exists results,
      length results = length names /\
      (forall i u, nth_error names i = Some u ->
         exists r, nth_error results i = Some r /\
                   Cli.normalize u (net i u) = Ret r) /\
      Cli.main a fs net initial =
        (Ret tt,
         mkState names
           [Print (progress names);
            match Cli.table_rows results with
            | Ret rows => PrintTable Cli.field_names rows
            | Raise e => PrintError e
            end]).
Proof.
  intros a fs net names Hget Hall.
  destruct (append_each_returns CommandLine net names []
              (mkState [] [Print (progress names)]) Hall)
    as (results & Hrun & Hlen & Hnth).
  exists results. split; [exact Hlen |]. split; [exact Hnth |].
  unfold Cli.main, except_Exception. rewrite bind_run. unfold lift.
  rewrite Hget. rewrite bind_run. unfold emit at 1. cbv beta iota.
  rewrite bind_run.
  change (Cli.fetch_all_users net names)
    with (append_each (fetch_user_data_at CommandLine net) names []).
  change (shown initial ++
          [Print ("Fetching data for " ++ str_int (len names) ++ " users...")])
    with [Print (progress names)].
  change (calls initial) with (@nil string).
  rewrite Hrun. simpl app.
  unfold Cli.display_data. rewrite bind_run. unfold lift.
  destruct (Cli.table_rows results); reflexivity.
Qed.

Lemma command_line_run_end_to_end_witness :
  exists results,
    length results = length ["alice"; "ghost"] /\
    (forall i u, nth_error ["alice"; "ghost"] i = Some u ->
       exists r, nth_error results i = Some r /\
                 Cli.normalize u (ghost_network i u) = Ret r) /\
    Cli.main (Cli.mkArgs (Some "names.txt") None) one_file ghost_network
      initial =
      (Ret tt,
       mkState ["alice"; "ghost"]
         [Print (progress ["alice"; "ghost"]);
          match Cli.table_rows results with
          | Ret rows => PrintTable Cli.field_names rows
          | Raise e => PrintError e
          end]).
Proof.
  apply (command_line_run_end_to_end (Cli.mkArgs (Some "names.txt") None)
           one_file ghost_network ["alice"; "ghost"]).
  - reflexivity.
  - intros [| [| i]] u H; simpl in H;
      try (injection H as <-; eexists; reflexivity).
    destruct i; discriminate H.
Defined.

(** X15.  A command-line run in which a fetch raises ends normally all
    the same: [main] prints the progress line and then the error, no
    table, and nothing of what was fetched before; the names after the
    failing one are never requested. *)
Theorem command_line_run_with_a_raising_fetch :
  forall (a : Cli.args) (fs : Cli.filesystem) (net : network)
         (names : list string) (k : nat) (u : string) (e : exn),
    Cli.get_usernames a fs = Ret names ->
    nth_error names k = Some u ->
    (forall i v, (i < k)%nat -> nth_error names i = Some v ->
       exists r, Cli.normalize v (net i v) = Ret r) ->
    Cli.normalize u (net k u) = Raise e ->
    Cli.main a fs net initial =
      (Ret tt,
       mkState (firstn (S k) names) [Print (progress names); PrintError e]).
Proof.
  intros a fs net names k u e Hget Hk Hbefore He.
  pose proof (append_each_raises CommandLine net names []
                (mkState [] [Print (progress names)]) k u e Hk Hbefore He)
    as Hrun.
  unfold Cli.main, except_Exception. rewrite bind_run. unfold lift.
  rewrite Hget. rewrite bind_run. unfold emit at 1. cbv beta iota.
  rewrite bind_run.
  change (Cli.fetch_all_users net names)
    with (append_each (fetch_user_data_at CommandLine net) names []).
  change (shown initial ++
          [Print ("Fetching data for " ++ str_int (len names) ++ " users...")])
    with [Print (progress names)].
  change (calls initial) with (@nil string).
  rewrite Hrun. reflexivity.
Qed.

Lemma command_line_run_with_a_raising_fetch_witness :
  Cli.main (Cli.mkArgs None (Some "alice,bob,carol,dave")) one_file
    empty_object_network initial =
    (Ret tt,
     mkState (firstn 2 ["alice"; "bob"; "carol"; "dave"])
       [Print (progress ["alice"; "bob"; "carol"; "dave"]);
        PrintError (KeyError "data")]).
Proof.
  apply (command_line_run_with_a_raising_fetch
           (Cli.mkArgs None (Some "alice,bob,carol,dave")) one_file
           empty_object_network ["alice"; "bob"; "carol"; "dave"] 1%nat "bob"
           (KeyError "data")).
  - reflexivity.
  - reflexivity.
  - intros [| i] v Hi Hv; [| lia]. injection Hv as <-.
    eexists. reflexivity.
  - reflexivity.
Defined.

(** ** The page's frame *)

(** X16.  A batch without a single ranking, such as one of Failures
    only, brings the page down: [sort_values] finds no [ranking] column,
    [display_data] raises [KeyError] and nothing is shown. *)
Theorem page_of_failures_only_raises :
  forall (sort_frame : list record -> outcome (list record))
         (data : list record) (st : state),
    data <> [] ->
    (forall row, In row data -> has_key "ranking" row = false) ->
    App.display_data sort_frame data st = (Raise (KeyError "ranking"), st).
Proof.
  intros sort_frame data st Hne Hnone.
  assert (Hcolumn : existsb (has_key "ranking") data = false).
  { destruct (existsb (has_key "ranking") data) eqn:Hex; [| reflexivity].
    apply existsb_exists in Hex. destruct Hex as (row & Hin & Hkey).
    rewrite (Hnone row Hin) in Hkey. discriminate Hkey. }
  destruct data as [| row rest]; [contradiction |].
  unfold App.display_data, App.sort_values. rewrite bind_run. unfold lift.
  rewrite Hcolumn. reflexivity.
Qed.

Lemma page_of_failures_only_raises_witness :
  App.display_data (fun _ => Raise TypeError) ghosts_only initial =
    (Raise (KeyError "ranking"), initial).
Proof.
  apply (page_of_failures_only_raises (fun _ => Raise TypeError) ghosts_only
           initial).
  - discriminate.
  - intros row [<- | [<- | []]]; reflexivity.
Defined.





(** ** Names *)

Lemma lstrip_starts_clean (l : list ascii) : starts_clean (lstrip_chars l).
Proof.
  induction l as [| c l IH]; simpl; [exact I |].
  destruct (is_space c) eqn:Hc; [exact IH | exact Hc].
Qed.

Lemma lstrip_fixed (l : list ascii) : starts_clean l -> lstrip_chars l = l.
Proof.
  destruct l as [| c l]; simpl; [reflexivity |].
  intros Hc. rewrite Hc. reflexivity.
Qed.

Lemma lstrip_suffix (l : list ascii) :
  exists spaces, l = spaces ++ lstrip_chars l.
Proof.
  induction l as [| c l (spaces & IH)]; simpl.
  - exists []. reflexivity.
  - destruct (is_space c).
    + exists (c :: spaces). simpl. f_equal. exact IH.
    + exists []. reflexivity.
Qed.

Lemma starts_clean_prefix (a b : list ascii) :
  starts_clean (a ++ b) -> a <> [] -> starts_clean a.
Proof. destruct a; [contradiction | simpl; auto]. Qed.

Lemma lstrip_keeps_clean_end (l : list ascii) :
  starts_clean (rev l) -> starts_clean (rev (lstrip_chars l)).
Proof.
  intros Hend. destruct (lstrip_suffix l) as (spaces & Hl).
  destruct (lstrip_chars l) as [| c rest] eqn:Hstripped; [exact I |].
  rewrite Hl, rev_app_distr in Hend.
  apply (starts_clean_prefix _ _ Hend).
  simpl. intros H. apply app_eq_nil in H. destruct H as (_ & H). discriminate H.
Qed.

Lemma strip_trimmed (s : string) : trimmed (strip s).
Proof.
  unfold trimmed, strip. rewrite list_ascii_of_string_of_list_ascii.
  rewrite rev_involutive. split.
  - apply lstrip_keeps_clean_end. rewrite rev_involutive.
    apply lstrip_starts_clean.
  - apply lstrip_starts_clean.
Qed.

Lemma strip_fixed (name : string) : trimmed name -> strip name = name.
Proof.
  intros (Hstart & Hend). unfold strip.
  rewrite (lstrip_fixed _ Hstart), (lstrip_fixed _ Hend), rev_involutive.
  apply string_of_list_ascii_of_string.
Qed.

(** X18.  Every name handed on by [get_usernames] or
    [get_usernames_from_file] is trimmed: it has no white space at its
    start or at its end, and stripping it again changes nothing. *)
Theorem names_are_trimmed :
  forall (name : string),
    (forall (a : Cli.args) (fs : Cli.filesystem) (names : list string),
        Cli.get_usernames a fs = Ret names -> In name names ->
        trimmed name /\ strip name = name) /\
    (forall (uploaded : App.uploaded_file) (st st' : state)
            (names : list string),
        App.get_usernames_from_file uploaded st = (Ret names, st') ->
        In name names ->
        trimmed name /\ strip name = name).
Proof.
  intros name.
  assert (Hmap : forall tokens, In name (map strip tokens) ->
                   trimmed name /\ strip name = name).
  { intros tokens Hin. apply in_map_iff in Hin. destruct Hin as (t & <- & _).
    split; [apply strip_trimmed | apply strip_fixed, strip_trimmed]. }
  split.
  - intros a fs names Hget Hin.
    apply get_usernames_Ret in Hget. destruct Hget as (Hread & _).
    unfold Cli.read_usernames in Hread.
    destruct (Cli.given (Cli.file a)) as [path |].
    + destruct (fs path) as [| e | text]; try discriminate Hread.
      injection Hread as <-. exact (Hmap _ Hin).
    + destruct (Cli.given (Cli.usernames a)) as [list |];
        [| discriminate Hread].
      injection Hread as <-. exact (Hmap _ Hin).
  - intros uploaded st st' names Hget Hin.
    unfold App.get_usernames_from_file in Hget.
    destruct (App.decoded uploaded) as [text | e].
    + destruct (len (map strip (splitlines text)) >? 200).
      * injection Hget as <- _. destruct Hin.
      * injection Hget as <- _. exact (Hmap _ Hin).
    + injection Hget as <- _. destruct Hin.
Qed.

Lemma names_are_trimmed_witness :
  trimmed "bob" /\ strip "bob" = "bob".
Proof.
  apply (proj1 (names_are_trimmed "bob")
           (Cli.mkArgs None (Some "  alice , bob  ,")) one_file
           ["alice"; "bob"; ""]).
  - reflexivity.
  - simpl. auto.
Defined.

Lemma split_from_length (sep : ascii) (s : string) :
  forall cur, length (split_from sep cur s) = S (count_char sep s).
Proof.
  induction s as [| c s IH]; intros cur; simpl; [reflexivity |].
  destruct (Ascii.eqb c sep); simpl; rewrite IH; reflexivity.
Qed.

(** X19.  Names given with [--usernames] are cut at every comma and
    nothing is dropped: a list with k commas yields k + 1 names, empty
    ones included, so the batch is never empty. *)
Theorem inline_names_are_cut_at_commas :
  forall (file : option string) (list : string) (fs : Cli.filesystem),
    Cli.given file = None ->
    list <> "" ->
    exists names,
      Cli.read_usernames (Cli.mkArgs file (Some list)) fs = Ret names /\
      names = map strip (split "," list) /\
      length names = S (count_char "," list) /\
      names <> [].
Proof.
  intros file list fs Hfile Hlist.
  exists (map strip (split "," list)).
  assert (Hlen : length (map strip (split "," list)) = S (count_char "," list)).
  { rewrite length_map. apply split_from_length. }
  split; [| split; [reflexivity | split; [exact Hlen |]]].
  - unfold Cli.read_usernames. simpl Cli.file. rewrite Hfile.
    simpl Cli.usernames. unfold Cli.given.
    destruct (String.eqb_spec list ""); [contradiction | reflexivity].
  - intros Hnil. rewrite Hnil in Hlen. discriminate Hlen.
Qed.

Lemma inline_names_are_cut_at_commas_witness :
  exists names,
    Cli.read_usernames (Cli.mkArgs (Some "") (Some "alice,,bob,")) one_file
      = Ret names /\
    names = map strip (split "," "alice,,bob,") /\
    length names = S (count_char "," "alice,,bob,") /\
    names <> [].
Proof.
  apply (inline_names_are_cut_at_commas (Some "") "alice,,bob," one_file).
  - reflexivity.
  - discriminate.
Defined.

Example empty_names_are_kept :
  Cli.get_usernames (Cli.mkArgs None (Some "alice,,bob,")) one_file =
    Ret ["alice"; ""; "bob"; ""].
Proof. reflexivity. Qed.

(** ** Runs of the page *)

Lemma get_usernames_from_file_accepts (text : string) (st : state) :
  len (map strip (splitlines text)) <= 200 ->
  App.get_usernames_from_file (App.mkUpload (Ret text)) st =
    (Ret (map strip (splitlines text)), st).
Proof.
  intros Hlen. unfold App.get_usernames_from_file. simpl.
  destruct (Z.gtb_spec (len (map strip (splitlines text))) 200);
    [lia | reflexivity].
Qed.

(** X20.  A run of the page in which every fetch yields a dictionary:
    the title, then the progress line with the number of names, then one
    request per name in input order, then the frame: the rows in the
    very order [sort_values] returned them for the batch, numbered from
    1; if [sort_values] raises, the exception leaves [main] and no frame
    is shown. *)
Theorem page_run_end_to_end :
  forall (sort_frame : list record -> outcome (list record))
         (text : string) (net : network) (names : list string),
    names = map strip (splitlines text) ->
    names <> [] ->
    len names <= 200 ->
    (forall i u, nth_error names i = Some u ->
       exists r, App.normalize u (net i u) = Ret r) ->
    exists results,
      length results = length names /\
      (forall i u, nth_error names i = Some u ->
         exists r, nth_error results i = Some r /\
                   App.normalize u (net i u) = Ret r) /\
      App.main sort_frame (Some (App.mkUpload (Ret text))) net initial =
        match App.sort_values sort_frame results with
        | Ret sorted =>
            (Ret tt,
             mkState names
               [StTitle "LeetCode User Fetcher"; StWrite (progress names);
                StDataframe (App.reindex 1 sorted)])
        | Raise e =>
            (Raise e,
             mkState names
               [StTitle "LeetCode User Fetcher"; StWrite (progress names)])
        end.
Proof.
  intros sort_frame text net names Hnames Hne Hlen Hall.
  destruct (append_each_returns Web net names []
              (mkState []
                 [StTitle "LeetCode User Fetcher"; StWrite (progress names)])
              Hall)
    as (results & Hrun & Hcount & Hnth).
  exists results. split; [exact Hcount |]. split; [exact Hnth |].
  unfold App.main. rewrite bind_run. unfold emit at 1. cbv beta iota.
  rewrite bind_run.
  rewrite get_usernames_from_file_accepts by (rewrite <- Hnames; exact Hlen).
  rewrite <- Hnames.
  destruct names as [| n names']; [contradiction |].
  remember (n :: names') as names eqn:Heq.
  rewrite bind_run. unfold emit at 1. cbv beta iota. rewrite bind_run.
  change (App.fetch_all_users net names)
    with (append_each (fetch_user_data_at Web net) names []).
  match goal with
  | |- context [append_each _ _ _ ?s] =>
      change s
        with (mkState []
                [StTitle "LeetCode User Fetcher"; StWrite (progress names)])
  end.
  rewrite Hrun. simpl app.
  assert (Hresults : results <> []).
  { intros ->. subst names. discriminate Hcount. }
  unfold App.display_data.
  destruct results as [| r results']; [contradiction |].
  rewrite bind_run. unfold lift.
  destruct (App.sort_values sort_frame (r :: results')); reflexivity.
Qed.

Lemma page_run_end_to_end_witness :
  exists results,
    length results = length ["alice"; "ghost"] /\
    (forall i u, nth_error ["alice"; "ghost"] i = Some u ->
       exists r, nth_error results i = Some r /\
                 App.normalize u (ghost_network i u) = Ret r) /\
    App.main sample_sort
      (Some (App.mkUpload (Ret two_lines))) ghost_network
      initial =
      match App.sort_values sample_sort results with
      | Ret sorted =>
          (Ret tt,
           mkState ["alice"; "ghost"]
             [StTitle "LeetCode User Fetcher";
              StWrite (progress ["alice"; "ghost"]);
              StDataframe (App.reindex 1 sorted)])
      | Raise e =>
          (Raise e,
           mkState ["alice"; "ghost"]
             [StTitle "LeetCode User Fetcher";
              StWrite (progress ["alice"; "ghost"])])
      end.
Proof.
  apply (page_run_end_to_end sample_sort
           two_lines ghost_network ["alice"; "ghost"]).
  - reflexivity.
  - discriminate.
  - vm_compute. discriminate.
  - intros [| [| i]] u H; simpl in H;
      try (injection H as <-; eexists; reflexivity).
    destruct i; discriminate H.
Defined.

(** X21.  On the page an exception of a fetch is not caught: it leaves
    [main] after the title and the progress line, no frame is shown and
    the names after the failing one are never requested. *)
Theorem page_run_with_a_raising_fetch :
  forall (sort_frame : list record -> outcome (list record))
         (text : string) (net : network) (names : list string)
         (k : nat) (u : string) (e : exn),
    names = map strip (splitlines text) ->
    len names <= 200 ->
    nth_error names k = Some u ->
    (forall i v, (i < k)%nat -> nth_error names i = Some v ->
       exists r, App.normalize v (net i v) = Ret r) ->
    App.normalize u (net k u) = Raise e ->
    App.main sort_frame (Some (App.mkUpload (Ret text))) net initial =
      (Raise e,
       mkState (firstn (S k) names)
         [StTitle "LeetCode User Fetcher"; StWrite (progress names)]).
Proof.
  intros sort_frame text net names k u e Hnames Hlen Hk Hbefore He.
  pose proof (append_each_raises Web net names []
                (mkState []
                   [StTitle "LeetCode User Fetcher"; StWrite (progress names)])
                k u e Hk Hbefore He) as Hrun.
  unfold App.main. rewrite bind_run. unfold emit at 1. cbv beta iota.
  rewrite bind_run.
  rewrite get_usernames_from_file_accepts by (rewrite <- Hnames; exact Hlen).
  rewrite <- Hnames.
  destruct names as [| n names']; [destruct k; discriminate Hk |].
  remember (n :: names') as names eqn:Heq.
  rewrite bind_run. unfold emit at 1. cbv beta iota. rewrite bind_run.
  change (App.fetch_all_users net names)
    with (append_each (fetch_user_data_at Web net) names []).
  match goal with
  | |- context [append_each _ _ _ ?s] =>
      change s
        with (mkState []
                [StTitle "LeetCode User Fetcher"; StWrite (progress names)])
  end.
  rewrite Hrun. reflexivity.
Qed.

Lemma page_run_with_a_raising_fetch_witness :
  App.main (fun _ => Raise TypeError)
    (Some (App.mkUpload (Ret three_lines))) empty_object_network initial =
    (Raise (KeyError "data"),
     mkState (firstn 2 ["alice"; "bob"; "carol"])
       [StTitle "LeetCode User Fetcher";
        StWrite (progress ["alice"; "bob"; "carol"])]).
Proof.
  apply (page_run_with_a_raising_fetch (fun _ => Raise TypeError)
           three_lines empty_object_network ["alice"; "bob"; "carol"] 1%nat "bob"
           (KeyError "data")).
  - reflexivity.
  - vm_compute. discriminate.
  - reflexivity.
  - intros [| i] v Hi Hv; [| lia]. injection Hv as <-.
    eexists. reflexivity.
  - reflexivity.
Defined.

(** X22.  An upload the page cannot use sends nothing: bytes that are
    not UTF-8 show the reading error, and a file without any line shows
    nothing but the title, not even a message. *)
Theorem useless_upload_sends_nothing :
  forall (sort_frame : list record -> outcome (list record))
         (net : network),
    (forall e,
        App.main sort_frame (Some (App.mkUpload (Raise e))) net initial =
          (Ret tt,
           mkState [] [StTitle "LeetCode User Fetcher"; StErrorReading e])) /\
    (forall text,
        splitlines text = [] ->
        App.main sort_frame (Some (App.mkUpload (Ret text))) net initial =
          (Ret tt, mkState [] [StTitle "LeetCode User Fetcher"])).
Proof.
  intros sort_frame net. split.
  - intros e. reflexivity.
  - intros text Hlines. unfold App.main. rewrite bind_run.
    unfold emit at 1. cbv beta iota. rewrite bind_run.
    rewrite get_usernames_from_file_accepts
      by (rewrite Hlines; unfold len; simpl; lia).
    rewrite Hlines. reflexivity.
Qed.

Lemma useless_upload_sends_nothing_witness :
  App.main (fun _ => Raise TypeError) (Some (App.mkUpload (Ret "")))
    ghost_network initial =
    (Ret tt, mkState [] [StTitle "LeetCode User Fetcher"]).
Proof.
  apply (proj2 (useless_upload_sends_nothing (fun _ => Raise TypeError)
                  ghost_network) "").
  reflexivity.
Defined.

Lemma page_never_warns_of_no_data_witness :
  ~ In (StWarning "No data to display.")
      (shown (snd (App.main (fun _ => Raise TypeError)
                     (Some (App.mkUpload (Ret ""))) ghost_network initial))).
Proof.
  apply (page_never_warns_of_no_data (fun _ => Raise TypeError)
           (Some (App.mkUpload (Ret ""))) ghost_network
           "No data to display.").
Defined.
